(** * Sleeper fantasy MCP server: request resolution and report shaping

    A shallow embedding of [sleeper_server.py].  Every tool of the server
    is a function from its string arguments and a world (the remote API
    together with the log of requests issued so far) to the text it
    returns and the world afterwards.

    Conventions of the embedding:
    - a Python [str] is a [string] holding its UTF-8 bytes;
    - a parsed JSON value is a [json]; numbers are integers (the reports
      print floats with the interpreter's shortest-repr algorithm, which
      is not modelled);
    - the builtins whose exact behaviour belongs to the interpreter and not
      to this repository ([int] on text, [str.upper], the [repr] of a
      container, the wording of a [TypeError]) are the fields of the class
      [PyRuntime]; theorems hold for every instance, and [cpython_ascii] is
      an instance that agrees with CPython on ASCII text;
    - logging (the [logger.info] and [logger.error] lines) writes to
      stderr only and is left out. *)

From Stdlib Require Import String Ascii List ZArith NArith Bool Lia DecimalString.
Import ListNotations.
Open Scope list_scope.
Open Scope string_scope.

(** ** Text *)

Definition nl : string := String (ascii_of_nat 10) EmptyString.

Definition str_of_Z (n : Z) : string := NilZero.string_of_int (Z.to_int n).
Definition str_of_nat (n : nat) : string := str_of_Z (Z.of_nat n).

Definition is_empty (s : string) : bool :=
  match s with EmptyString => true | String _ _ => false end.

(** [sep.join(parts)]. *)
Fixpoint join (sep : string) (parts : list string) : string :=
  match parts with
  | [] => EmptyString
  | [p] => p
  | p :: rest => p ++ sep ++ join sep rest
  end.

Fixpoint concat_all (parts : list string) : string :=
  match parts with
  | [] => EmptyString
  | p :: rest => p ++ concat_all rest
  end.

(** [needle in hay]. *)
Definition contains (hay needle : string) : Prop :=
  exists pre post, hay = pre ++ needle ++ post.

(** *** Code points of UTF-8 text

    [len], iteration and slicing of a [str] count code points: a byte of
    the form 10xxxxxx continues the code point of the byte before it. *)

Definition is_continuation (a : ascii) : bool :=
  let n := N_of_ascii a in ((128 <=? n) && (n <? 192))%N.

Definition starts_with_continuation (s : string) : bool :=
  match s with
  | EmptyString => false
  | String a _ => is_continuation a
  end.

Fixpoint code_points (s : string) : list string :=
  match s with
  | EmptyString => []
  | String a rest =>
      match code_points rest with
      | c :: cs =>
          if starts_with_continuation c
          then String a c :: cs
          else String a EmptyString :: c :: cs
      | [] => [String a EmptyString]
      end
  end.

(** *** [str.strip()]

    Without an argument [strip] removes the code points for which
    [str.isspace] holds: U+0009..U+000D, U+001C..U+0020, U+0085, U+00A0,
    U+1680, U+2000..U+200A, U+2028, U+2029, U+202F, U+205F and U+3000. *)

Definition ascii_space (n : N) : bool :=
  (((9 <=? n) && (n <=? 13)) || ((28 <=? n) && (n <=? 32)))%N.

Definition space2 (b0 b1 : N) : bool :=
  ((b0 =? 194) && ((b1 =? 133) || (b1 =? 160)))%N.

Definition space3 (b0 b1 b2 : N) : bool :=
  (((b0 =? 225) && (b1 =? 154) && (b2 =? 128))
   || ((b0 =? 226) && (b1 =? 128)
       && (((128 <=? b2) && (b2 <=? 138)) || (b2 =? 168) || (b2 =? 169) || (b2 =? 175)))
   || ((b0 =? 226) && (b1 =? 129) && (b2 =? 159))
   || ((b0 =? 227) && (b1 =? 128) && (b2 =? 128)))%N.

(** Bytes taken by the white-space code point at the head of [l], 0 when
    [l] does not start with one. *)
Definition leading_space (l : list N) : nat :=
  match l with
  | b0 :: t0 =>
      if ascii_space b0 then 1
      else match t0 with
           | b1 :: t1 =>
               if space2 b0 b1 then 2
               else match t1 with
                    | b2 :: _ => if space3 b0 b1 b2 then 3 else 0
                    | [] => 0
                    end
           | [] => 0
           end
  | [] => 0
  end.

(** The same at the end of the text, on the reversed bytes. *)
Definition trailing_space (r : list N) : nat :=
  match r with
  | b0 :: t0 =>
      if ascii_space b0 then 1
      else match t0 with
           | b1 :: t1 =>
               if space2 b1 b0 then 2
               else match t1 with
                    | b2 :: _ => if space3 b2 b1 b0 then 3 else 0
                    | [] => 0
                    end
           | [] => 0
           end
  | [] => 0
  end.

Fixpoint drop_while_space (width : list N -> nat) (fuel : nat) (l : list N) : list N :=
  match fuel with
  | O => l
  | S fuel' =>
      match width l with
      | O => l
      | k => drop_while_space width fuel' (skipn k l)
      end
  end.

Definition bytes_of (s : string) : list N := map N_of_ascii (list_ascii_of_string s).
Definition text_of (l : list N) : string := string_of_list_ascii (map ascii_of_N l).

Definition lstrip_bytes (l : list N) : list N :=
  drop_while_space leading_space (length l) l.
Definition rstrip_bytes (l : list N) : list N :=
  rev (drop_while_space trailing_space (length l) (rev l)).

Definition strip (s : string) : string :=
  text_of (rstrip_bytes (lstrip_bytes (bytes_of s))).

(** ** JSON values as [response.json()] returns them *)

#[warnings="-register-all"]
Inductive json : Type :=
| JNull
| JBool (b : bool)
| JInt (n : Z)
| JStr (s : string)
| JArr (items : list json)
| JObj (fields : list (string * json)).

(** Python truth value: [None], [False], 0, the empty string, list and
    dict are false. *)
Definition truthy (v : json) : bool :=
  match v with
  | JNull => false
  | JBool b => b
  | JInt n => negb (n =? 0)%Z
  | JStr s => negb (is_empty s)
  | JArr items => match items with [] => false | _ => true end
  | JObj fields => match fields with [] => false | _ => true end
  end.

Fixpoint lookup (key : string) (fields : list (string * json)) : option json :=
  match fields with
  | [] => None
  | (k, v) :: rest => if String.eqb key k then Some v else lookup key rest
  end.

(** ** Failures *)

(** What the interpreter raises when a value has the wrong shape. *)
Inductive fault : Type :=
| NoAttribute (v : json) (name : string)   (* AttributeError: v has no method [name] *)
| NoLen (v : json)                         (* TypeError from len(v) *)
| NotIterable (v : json)                   (* TypeError from iterating v *)
| NoSlice (v : json)                       (* v[:n] is not defined *)
| NoJoin (v : json)                        (* str.join on something not iterable *)
| JoinItem (pos : nat) (v : json)          (* str.join met a non-str item *)
| Unhashable (v : json).                   (* v used as a dict key *)

Inductive exn : Type :=
| Exception (msg : string)                 (* raise Exception(msg) *)
| Fault (f : fault).

Inductive result (A : Type) : Type :=
| Ok (a : A)
| Err (e : exn).
Arguments Ok {A} a.
Arguments Err {A} e.

Definition bind {A B : Type} (r : result A) (k : A -> result B) : result B :=
  match r with
  | Ok a => k a
  | Err e => Err e
  end.

Notation "x <- r ;; k" := (bind r (fun x => k))
  (at level 61, r at next level, right associativity).

(** Builtins of the interpreter. *)
Class PyRuntime : Type := {
  int_of_str : string -> option Z;      (* int(s); None is ValueError *)
  str_upper : string -> string;         (* s.upper() *)
  container_repr : json -> string;      (* str() of a list or dict *)
  fault_text : fault -> string          (* str(e) of an interpreter error *)
}.

(** ** Operations on values, as the interpreter performs them *)

Section Values.
Context {RT : PyRuntime}.

(** [str(e)] in the [except Exception as e] handlers. *)
Definition str_exn (e : exn) : string :=
  match e with
  | Exception msg => msg
  | Fault f => fault_text f
  end.

(** [str(v)], which is what an f-string field prints. *)
Definition py_str (v : json) : string :=
  match v with
  | JNull => "None"
  | JBool true => "True"
  | JBool false => "False"
  | JInt n => str_of_Z n
  | JStr s => s
  | JArr _ | JObj _ => container_repr v
  end.

(** [v.get(key, default)]; only a dict has the method. *)
Definition py_get (v : json) (key : string) (default : json) : result json :=
  match v with
  | JObj fields =>
      Ok (match lookup key fields with Some x => x | None => default end)
  | _ => Err (Fault (NoAttribute v "get"))
  end.

(** [len(v)]. *)
Definition py_len (v : json) : result nat :=
  match v with
  | JArr items => Ok (length items)
  | JObj fields => Ok (length fields)
  | JStr s => Ok (length (code_points s))
  | _ => Err (Fault (NoLen v))
  end.

(** The items a [for] loop, [enumerate] or [join] sees: the elements of a
    list, the keys of a dict, the code points of a str. *)
Definition py_iter (v : json) : result (list json) :=
  match v with
  | JArr items => Ok items
  | JObj fields => Ok (map (fun kv => JStr (fst kv)) fields)
  | JStr s => Ok (map JStr (code_points s))
  | _ => Err (Fault (NotIterable v))
  end.

(** [v[:n]]. *)
Definition py_slice (v : json) (n : nat) : result json :=
  match v with
  | JArr items => Ok (JArr (firstn n items))
  | JStr s => Ok (JStr (concat_all (firstn n (code_points s))))
  | _ => Err (Fault (NoSlice v))
  end.

Fixpoint all_str (pos : nat) (items : list json) : result (list string) :=
  match items with
  | [] => Ok []
  | JStr s :: rest => tl <- all_str (S pos) rest ;; Ok (s :: tl)
  | v :: _ => Err (Fault (JoinItem pos v))
  end.

(** [sep.join(v)]: [v] is first turned into a sequence, then every item
    has to be a str. *)
Definition py_join (sep : string) (v : json) : result string :=
  match py_iter v with
  | Ok items => parts <- all_str 0 items ;; Ok (join sep parts)
  | Err _ => Err (Fault (NoJoin v))
  end.

(** [v.items()] of a dict. *)
Definition py_items (v : json) : result (list (string * json)) :=
  match v with
  | JObj fields => Ok fields
  | _ => Err (Fault (NoAttribute v "items"))
  end.

(** [v.upper()] of a str. *)
Definition py_upper (v : json) : result string :=
  match v with
  | JStr s => Ok (str_upper s)
  | _ => Err (Fault (NoAttribute v "upper"))
  end.

(** A loop [for i, x in enumerate(items, start): result += body(i, x)],
    or with [body] ignoring [i] a plain [for]. *)
Fixpoint for_each {A : Type} (start : nat) (body : nat -> A -> result string)
    (items : list A) : result string :=
  match items with
  | [] => Ok EmptyString
  | x :: rest =>
      here <- body start x ;;
      there <- for_each (S start) body rest ;;
      Ok (here ++ there)
  end.

(** [v.get(key, default)] printed in an f-string. *)
Definition field (v : json) (key : string) (default : json) : result string :=
  x <- py_get v key default ;; Ok (py_str x).

Definition NA : json := JStr "N/A".

End Values.

(** ** The remote API and the fetcher *)

(** What one GET returns. *)
Inductive response : Type :=
| Body (j : json)                   (* a 2xx answer whose body parses to j *)
| Status (code : Z) (text : string) (* raise_for_status raises HTTPStatusError *)
| Broken (msg : string).            (* any other exception e, with str(e) = msg *)

Record world : Type := {
  remote : string -> response;
  requests : list string
}.

Definition BASE_URL : string := "https://api.sleeper.app/v1".

(** [fetch_json(url)]: one GET, logged in the world. *)
Definition fetch_json (url : string) (w : world) : result json * world :=
  (match remote w url with
   | Body j => Ok j
   | Status code text =>
       Err (Exception ("API Error " ++ str_of_Z code ++ ": " ++ text))
   | Broken msg => Err (Exception ("Request failed: " ++ msg))
   end,
   {| remote := remote w; requests := (requests w ++ [url])%list |}).

Section Server.
Context {RT : PyRuntime}.

(** [os.environ.get("SLEEPER_LEAGUE_ID", "")], read once at start. *)
Variable LEAGUE_ID : string.

(** *** Formatters *)

Definition format_user (user : json) : result string :=
  if negb (truthy user) then Ok "No user data"
  else
    display_name <- field user "display_name" NA ;;
    username <- field user "username" NA ;;
    user_id <- field user "user_id" NA ;;
    avatar <- field user "avatar" NA ;;
    Ok ("👤 User: " ++ display_name ++ " (@" ++ username ++ ")" ++ nl
        ++ "- User ID: " ++ user_id ++ nl
        ++ "- Avatar: " ++ avatar).

Definition format_league (league : json) : result string :=
  if negb (truthy league) then Ok "No league data"
  else
    name <- field league "name" NA ;;
    league_id <- field league "league_id" NA ;;
    season <- field league "season" NA ;;
    status <- field league "status" NA ;;
    sport <- field league "sport" NA ;;
    total_rosters <- field league "total_rosters" NA ;;
    draft_id <- field league "draft_id" NA ;;
    Ok ("🏈 League: " ++ name ++ nl
        ++ "- League ID: " ++ league_id ++ nl
        ++ "- Season: " ++ season ++ nl
        ++ "- Status: " ++ status ++ nl
        ++ "- Sport: " ++ sport ++ nl
        ++ "- Total Rosters: " ++ total_rosters ++ nl
        ++ "- Draft ID: " ++ draft_id).

(** The starters of a roster or of a matchup team, as lines 75 and 248
    print them:
    [", ".join(x.get("starters", [])[:5])] followed by ["..."] when
    [len(x.get("starters", [])) > 5]. *)
Definition starters_shown (owner : json) : result string :=
  starters <- py_get owner "starters" (JArr []) ;;
  first5 <- py_slice starters 5 ;;
  joined <- py_join ", " first5 ;;
  again <- py_get owner "starters" (JArr []) ;;
  n <- py_len again ;;
  Ok (joined ++ (if Nat.ltb 5 n then "..." else EmptyString)).

Definition format_roster (roster : json) (index : nat) : result string :=
  settings <- py_get roster "settings" (JObj []) ;;
  roster_id <- field roster "roster_id" NA ;;
  owner_id <- field roster "owner_id" NA ;;
  wins <- field settings "wins" (JInt 0) ;;
  losses <- field settings "losses" (JInt 0) ;;
  ties <- field settings "ties" (JInt 0) ;;
  fpts <- field settings "fpts" (JInt 0) ;;
  fpts_decimal <- field settings "fpts_decimal" (JInt 0) ;;
  fpts_against <- field settings "fpts_against" (JInt 0) ;;
  fpts_against_decimal <- field settings "fpts_against_decimal" (JInt 0) ;;
  players <- py_get roster "players" (JArr []) ;;
  n_players <- py_len players ;;
  starters <- starters_shown roster ;;
  Ok ("📊 Roster " ++ str_of_nat (index + 1) ++ " (ID: " ++ roster_id ++ ")" ++ nl
      ++ "- Owner: " ++ owner_id ++ nl
      ++ "- Record: " ++ wins ++ "W - " ++ losses ++ "L - " ++ ties ++ "T" ++ nl
      ++ "- Points For: " ++ fpts ++ "." ++ fpts_decimal ++ nl
      ++ "- Points Against: " ++ fpts_against ++ "." ++ fpts_against_decimal ++ nl
      ++ "- Players: " ++ str_of_nat n_players ++ " total" ++ nl
      ++ "- Starters: " ++ starters).

(** *** The shape shared by every tool *)

(** [except Exception as e: return f"❌ Error: {str(e)}"]. *)
Definition report (r : result string) : string :=
  match r with
  | Ok text => text
  | Err e => "❌ Error: " ++ str_exn e
  end.

(** The [try] block of a tool: fetch [url], shape the answer with [body];
    whatever either raises becomes an error report. *)
Definition try_request (url : string) (body : json -> result string)
    (w : world) : string * world :=
  let (fetched, w') := fetch_json url w in
  (report (j <- fetched ;; body j), w').

(** [league_id.strip() or LEAGUE_ID.strip()]. *)
Definition resolve_league (league_id : string) : string :=
  if is_empty (strip league_id) then strip LEAGUE_ID else strip league_id.

Definition league_required : string :=
  "❌ Error: League ID is required (provide league_id or set SLEEPER_LEAGUE_ID environment variable)".

(** The guard that opens the nine league tools. *)
Definition with_league (league_id : string)
    (k : string -> world -> string * world) (w : world) : string * world :=
  let lid := resolve_league league_id in
  if is_empty lid then (league_required, w) else k lid w.

(** *** Tools *)

Definition get_user (username : string) (w : world) : string * world :=
  if is_empty (strip username)
  then ("❌ Error: Username or user ID is required", w)
  else
    try_request (BASE_URL ++ "/user/" ++ username)
      (fun user =>
         shown <- format_user user ;;
         Ok ("✅ User Found:" ++ nl ++ shown))
      w.

Definition get_user_leagues (user_id sport season : string) (w : world)
    : string * world :=
  if is_empty (strip user_id)
  then ("❌ Error: User ID is required", w)
  else
    try_request
      (BASE_URL ++ "/user/" ++ user_id ++ "/leagues/" ++ sport ++ "/" ++ season)
      (fun leagues =>
         if negb (truthy leagues)
         then Ok ("📭 No leagues found for user " ++ user_id ++ " in "
                  ++ sport ++ " " ++ season)
         else
           n <- py_len leagues ;;
           items <- py_iter leagues ;;
           body <- for_each 1
                     (fun i league =>
                        shown <- format_league league ;;
                        Ok (str_of_nat i ++ ". " ++ shown ++ nl ++ nl))
                     items ;;
           Ok ("🏈 Found " ++ str_of_nat n ++ " league(s):" ++ nl ++ nl ++ body))
      w.

Definition get_league (league_id : string) : world -> string * world :=
  with_league league_id (fun lid =>
    try_request (BASE_URL ++ "/league/" ++ lid)
      (fun league =>
         shown <- format_league league ;;
         settings <- py_get league "settings" JNull ;;
         extra <-
           (if truthy settings
            then
              playoff_teams <- field settings "playoff_teams" NA ;;
              waiver_type <- field settings "waiver_type" NA ;;
              trade_deadline <- field settings "trade_deadline" NA ;;
              Ok ("⚙️ Settings:" ++ nl
                  ++ "- Playoff Teams: " ++ playoff_teams ++ nl
                  ++ "- Waiver Type: " ++ waiver_type ++ nl
                  ++ "- Trade Deadline: Week " ++ trade_deadline ++ nl)
            else Ok EmptyString) ;;
         Ok ("✅ League Details:" ++ nl ++ shown ++ nl ++ nl ++ extra))).

Definition get_league_rosters (league_id : string) : world -> string * world :=
  with_league league_id (fun lid =>
    try_request (BASE_URL ++ "/league/" ++ lid ++ "/rosters")
      (fun rosters =>
         if negb (truthy rosters)
         then Ok ("📭 No rosters found for league " ++ lid)
         else
           n <- py_len rosters ;;
           items <- py_iter rosters ;;
           body <- for_each 0
                     (fun i roster =>
                        shown <- format_roster roster i ;;
                        Ok (shown ++ nl ++ nl))
                     items ;;
           Ok ("📊 Found " ++ str_of_nat n ++ " roster(s):" ++ nl ++ nl ++ body))).

Definition get_league_users (league_id : string) : world -> string * world :=
  with_league league_id (fun lid =>
    try_request (BASE_URL ++ "/league/" ++ lid ++ "/users")
      (fun users =>
         if negb (truthy users)
         then Ok ("📭 No users found for league " ++ lid)
         else
           n <- py_len users ;;
           items <- py_iter users ;;
           body <- for_each 1
                     (fun i user =>
                        metadata <- py_get user "metadata" (JObj []) ;;
                        team_name <- field metadata "team_name" (JStr "No team name") ;;
                        owner <- py_get user "is_owner" JNull ;;
                        let is_owner :=
                          if truthy owner then "👑 Commissioner" else EmptyString in
                        display_name <- field user "display_name" NA ;;
                        username <- field user "username" NA ;;
                        user_id <- field user "user_id" NA ;;
                        Ok (str_of_nat i ++ ". " ++ display_name ++ " (@" ++ username
                            ++ ") " ++ is_owner ++ nl
                            ++ "   Team: " ++ team_name ++ nl
                            ++ "   User ID: " ++ user_id ++ nl ++ nl))
                     items ;;
           Ok ("👥 Found " ++ str_of_nat n ++ " user(s):" ++ nl ++ nl ++ body))).

(** **** Matchups: grouping by [matchup_id]

    [matchup_dict] is a dict, which keeps its keys in insertion order; it
    is the list of its (key, teams) pairs.  Keys are compared as a dict
    compares them: [True] and [1] are the same key. *)

Definition groups : Type := list (json * list json).

Definition hashable (v : json) : bool :=
  match v with
  | JArr _ | JObj _ => false
  | _ => true
  end.

Definition key_number (v : json) : option Z :=
  match v with
  | JInt n => Some n
  | JBool true => Some 1%Z
  | JBool false => Some 0%Z
  | _ => None
  end.

Definition key_eqb (a b : json) : bool :=
  match a, b with
  | JNull, JNull => true
  | JStr s, JStr t => String.eqb s t
  | _, _ =>
      match key_number a, key_number b with
      | Some m, Some n => (m =? n)%Z
      | _, _ => false
      end
  end.

(** [mid in matchup_dict]. *)
Definition has_key (mid : json) (d : groups) : bool :=
  existsb (fun g => key_eqb mid (fst g)) d.

(** [matchup_dict[mid].append(matchup)]. *)
Fixpoint append_to (mid matchup : json) (d : groups) : groups :=
  match d with
  | [] => []
  | (k, teams) :: rest =>
      if key_eqb mid k
      then (k, (teams ++ [matchup])%list) :: rest
      else (k, teams) :: append_to mid matchup rest
  end.

(** One turn of the loop at lines 232-236. *)
Definition group_step (d : groups) (matchup : json) : result groups :=
  mid <- py_get matchup "matchup_id" JNull ;;
  if hashable mid
  then
    let d' := if has_key mid d then d else (d ++ [(mid, [])])%list in
    Ok (append_to mid matchup d')
  else Err (Fault (Unhashable mid)).

Fixpoint group_loop (d : groups) (matchups : list json) : result groups :=
  match matchups with
  | [] => Ok d
  | matchup :: rest => d' <- group_step d matchup ;; group_loop d' rest
  end.

Definition group_matchups (matchups : list json) : result groups :=
  group_loop [] matchups.

Definition render_team (team : json) : result string :=
  points <- py_get team "points" (JInt 0) ;;
  custom <- py_get team "custom_points" JNull ;;
  let points_str :=
    match custom with
    | JNull => py_str points
    | _ => py_str custom ++ " (override)"
    end in
  roster_id <- field team "roster_id" NA ;;
  starters <- starters_shown team ;;
  Ok ("  Roster " ++ roster_id ++ ": " ++ points_str ++ " pts" ++ nl
      ++ "    Starters: " ++ starters ++ nl).

Definition render_group (g : json * list json) : result string :=
  teams <- for_each 0 (fun _ team => render_team team) (snd g) ;;
  Ok ("⚔️ Matchup " ++ py_str (fst g) ++ ":" ++ nl ++ teams ++ nl).

Definition format_matchups (week : string) (matchups : json) : result string :=
  items <- py_iter matchups ;;
  d <- group_matchups items ;;
  body <- for_each 0 (fun _ g => render_group g) d ;;
  Ok ("🏈 Week " ++ week ++ " Matchups:" ++ nl ++ nl ++ body).

Definition get_league_matchups (league_id week : string)
    : world -> string * world :=
  with_league league_id (fun lid w =>
    if is_empty (strip week)
    then ("❌ Error: Week number is required", w)
    else
      try_request (BASE_URL ++ "/league/" ++ lid ++ "/matchups/" ++ week)
        (fun matchups =>
           if negb (truthy matchups)
           then Ok ("📭 No matchups found for league " ++ lid ++ ", week " ++ week)
           else format_matchups week matchups)
        w).

(** [winner != "TBD" and winner is not None]. *)
Definition decided (winner : json) : bool :=
  match winner with
  | JNull => false
  | JStr s => negb (String.eqb s "TBD")
  | _ => true
  end.

Definition TBD : json := JStr "TBD".

Definition get_winners_bracket (league_id : string) : world -> string * world :=
  with_league league_id (fun lid =>
    try_request (BASE_URL ++ "/league/" ++ lid ++ "/winners_bracket")
      (fun bracket =>
         if negb (truthy bracket)
         then Ok ("📭 No playoff bracket found for league " ++ lid)
         else
           items <- py_iter bracket ;;
           body <- for_each 0
                     (fun _ m =>
                        round_num <- field m "r" NA ;;
                        match_id <- field m "m" NA ;;
                        t1 <- field m "t1" TBD ;;
                        t2 <- field m "t2" TBD ;;
                        winner <- py_get m "w" TBD ;;
                        Ok ("Round " ++ round_num ++ ", Match " ++ match_id ++ ":" ++ nl
                            ++ "  Team 1: Roster " ++ t1 ++ nl
                            ++ "  Team 2: Roster " ++ t2 ++ nl
                            ++ (if decided winner
                                then "  Winner: Roster " ++ py_str winner ++ nl
                                else EmptyString)
                            ++ nl))
                     items ;;
           Ok ("🏆 Winners Bracket:" ++ nl ++ nl ++ body))).

Definition get_losers_bracket (league_id : string) : world -> string * world :=
  with_league league_id (fun lid =>
    try_request (BASE_URL ++ "/league/" ++ lid ++ "/losers_bracket")
      (fun bracket =>
         if negb (truthy bracket)
         then Ok ("📭 No losers bracket found for league " ++ lid)
         else
           items <- py_iter bracket ;;
           body <- for_each 0
                     (fun _ m =>
                        round_num <- field m "r" NA ;;
                        match_id <- field m "m" NA ;;
                        t1 <- field m "t1" TBD ;;
                        t2 <- field m "t2" TBD ;;
                        winner <- py_get m "w" TBD ;;
                        placement <- py_get m "p" (JStr EmptyString) ;;
                        Ok ("Round " ++ round_num ++ ", Match " ++ match_id
                            ++ (if truthy placement
                                then " (for place " ++ py_str placement ++ ")"
                                else EmptyString)
                            ++ ":" ++ nl
                            ++ "  Team 1: Roster " ++ t1 ++ nl
                            ++ "  Team 2: Roster " ++ t2 ++ nl
                            ++ (if decided winner
                                then "  Winner: Roster " ++ py_str winner ++ nl
                                else EmptyString)
                            ++ nl))
                     items ;;
           Ok ("🎯 Losers Bracket:" ++ nl ++ nl ++ body))).

(** [', '.join([f'Player {pid} {word} Roster {rid}' for pid, rid in moves.items()])]. *)
Definition moves_shown (word : string) (moves : json) : result string :=
  pairs <- py_items moves ;;
  Ok (join ", "
        (map (fun kv => "Player " ++ fst kv ++ " " ++ word ++ " Roster " ++ py_str (snd kv))
             pairs)).

Definition get_league_transactions (league_id week : string)
    : world -> string * world :=
  with_league league_id (fun lid w =>
    if is_empty (strip week)
    then ("❌ Error: Week number is required", w)
    else
      try_request (BASE_URL ++ "/league/" ++ lid ++ "/transactions/" ++ week)
        (fun transactions =>
           if negb (truthy transactions)
           then Ok ("📭 No transactions found for league " ++ lid ++ ", week " ++ week)
           else
             n <- py_len transactions ;;
             items <- py_iter transactions ;;
             body <- for_each 1
                       (fun i txn =>
                          txn_type <- py_get txn "type" (JStr "unknown") ;;
                          status <- py_get txn "status" (JStr "unknown") ;;
                          upper <- py_upper txn_type ;;
                          adds <- py_get txn "adds" JNull ;;
                          adds_line <-
                            (if truthy adds
                             then shown <- moves_shown "to" adds ;;
                                  Ok ("   Adds: " ++ shown ++ nl)
                             else Ok EmptyString) ;;
                          drops <- py_get txn "drops" JNull ;;
                          drops_line <-
                            (if truthy drops
                             then shown <- moves_shown "from" drops ;;
                                  Ok ("   Drops: " ++ shown ++ nl)
                             else Ok EmptyString) ;;
                          draft_picks <- py_get txn "draft_picks" JNull ;;
                          picks_line <-
                            (if truthy draft_picks
                             then k <- py_len draft_picks ;;
                                  Ok ("   Draft Picks: " ++ str_of_nat k
                                      ++ " pick(s) involved" ++ nl)
                             else Ok EmptyString) ;;
                          Ok (str_of_nat i ++ ". Type: " ++ upper ++ " - Status: "
                              ++ py_str status ++ nl
                              ++ adds_line ++ drops_line ++ picks_line ++ nl))
                       items ;;
             Ok ("💼 Week " ++ week ++ " Transactions (" ++ str_of_nat n ++ " total):"
                 ++ nl ++ nl ++ body))
        w).

Definition get_traded_picks (league_id : string) : world -> string * world :=
  with_league league_id (fun lid =>
    try_request (BASE_URL ++ "/league/" ++ lid ++ "/traded_picks")
      (fun picks =>
         if negb (truthy picks)
         then Ok ("📭 No traded picks found for league " ++ lid)
         else
           n <- py_len picks ;;
           items <- py_iter picks ;;
           body <- for_each 1
                     (fun i pick =>
                        season <- field pick "season" NA ;;
                        round_num <- field pick "round" NA ;;
                        original <- field pick "roster_id" NA ;;
                        previous <- field pick "previous_owner_id" NA ;;
                        current <- field pick "owner_id" NA ;;
                        Ok (str_of_nat i ++ ". " ++ season ++ " Round " ++ round_num ++ nl
                            ++ "   Original Owner: Roster " ++ original ++ nl
                            ++ "   Previous Owner: Roster " ++ previous ++ nl
                            ++ "   Current Owner: Roster " ++ current ++ nl ++ nl))
                     items ;;
           Ok ("🔄 Traded Draft Picks (" ++ str_of_nat n ++ " total):"
               ++ nl ++ nl ++ body))).

Definition get_nfl_state (w : world) : string * world :=
  try_request (BASE_URL ++ "/state/nfl")
    (fun state =>
       week <- field state "week" NA ;;
       display_week <- field state "display_week" NA ;;
       season <- field state "season" NA ;;
       season_type <- field state "season_type" NA ;;
       season_start_date <- field state "season_start_date" NA ;;
       league_season <- field state "league_season" NA ;;
       league_create_season <- field state "league_create_season" NA ;;
       previous_season <- field state "previous_season" NA ;;
       Ok ("🏈 NFL State:" ++ nl
           ++ "- Current Week: " ++ week ++ nl
           ++ "- Display Week: " ++ display_week ++ nl
           ++ "- Season: " ++ season ++ nl
           ++ "- Season Type: " ++ season_type ++ nl
           ++ "- Season Start: " ++ season_start_date ++ nl
           ++ "- League Season: " ++ league_season ++ nl
           ++ "- League Create Season: " ++ league_create_season ++ nl
           ++ "- Previous Season: " ++ previous_season))
    w.

Definition get_user_drafts (user_id sport season : string) (w : world)
    : string * world :=
  if is_empty (strip user_id)
  then ("❌ Error: User ID is required", w)
  else
    try_request
      (BASE_URL ++ "/user/" ++ user_id ++ "/drafts/" ++ sport ++ "/" ++ season)
      (fun drafts =>
         if negb (truthy drafts)
         then Ok ("📭 No drafts found for user " ++ user_id ++ " in "
                  ++ sport ++ " " ++ season)
         else
           n <- py_len drafts ;;
           items <- py_iter drafts ;;
           body <- for_each 1
                     (fun i draft =>
                        draft_id <- field draft "draft_id" NA ;;
                        type <- field draft "type" NA ;;
                        status <- field draft "status" NA ;;
                        league_id <- field draft "league_id" NA ;;
                        dseason <- field draft "season" NA ;;
                        Ok (str_of_nat i ++ ". Draft ID: " ++ draft_id ++ nl
                            ++ "   Type: " ++ type ++ nl
                            ++ "   Status: " ++ status ++ nl
                            ++ "   League ID: " ++ league_id ++ nl
                            ++ "   Season: " ++ dseason ++ nl ++ nl))
                     items ;;
           Ok ("📝 Found " ++ str_of_nat n ++ " draft(s):" ++ nl ++ nl ++ body))
      w.

Definition get_league_drafts (league_id : string) : world -> string * world :=
  with_league league_id (fun lid =>
    try_request (BASE_URL ++ "/league/" ++ lid ++ "/drafts")
      (fun drafts =>
         if negb (truthy drafts)
         then Ok ("📭 No drafts found for league " ++ lid)
         else
           n <- py_len drafts ;;
           items <- py_iter drafts ;;
           body <- for_each 1
                     (fun i draft =>
                        settings <- py_get draft "settings" (JObj []) ;;
                        metadata <- py_get draft "metadata" (JObj []) ;;
                        draft_id <- field draft "draft_id" NA ;;
                        type <- field draft "type" NA ;;
                        status <- field draft "status" NA ;;
                        season <- field draft "season" NA ;;
                        teams <- field settings "teams" NA ;;
                        rounds <- field settings "rounds" NA ;;
                        scoring <- field metadata "scoring_type" NA ;;
                        Ok (str_of_nat i ++ ". Draft ID: " ++ draft_id ++ nl
                            ++ "   Type: " ++ type ++ nl
                            ++ "   Status: " ++ status ++ nl
                            ++ "   Season: " ++ season ++ nl
                            ++ "   Teams: " ++ teams ++ nl
                            ++ "   Rounds: " ++ rounds ++ nl
                            ++ "   Scoring: " ++ scoring ++ nl ++ nl))
                     items ;;
           Ok ("📝 Found " ++ str_of_nat n ++ " draft(s):" ++ nl ++ nl ++ body))).

Definition get_draft (draft_id : string) (w : world) : string * world :=
  if is_empty (strip draft_id)
  then ("❌ Error: Draft ID is required", w)
  else
    try_request (BASE_URL ++ "/draft/" ++ draft_id)
      (fun draft =>
         settings <- py_get draft "settings" (JObj []) ;;
         metadata <- py_get draft "metadata" (JObj []) ;;
         did <- field draft "draft_id" NA ;;
         type <- field draft "type" NA ;;
         status <- field draft "status" NA ;;
         league_id <- field draft "league_id" NA ;;
         season <- field draft "season" NA ;;
         sport <- field draft "sport" NA ;;
         teams <- field settings "teams" NA ;;
         rounds <- field settings "rounds" NA ;;
         pick_timer <- field settings "pick_timer" NA ;;
         scoring <- field metadata "scoring_type" NA ;;
         qb <- field settings "slots_qb" (JInt 0) ;;
         rb <- field settings "slots_rb" (JInt 0) ;;
         wr <- field settings "slots_wr" (JInt 0) ;;
         te <- field settings "slots_te" (JInt 0) ;;
         flex <- field settings "slots_flex" (JInt 0) ;;
         k <- field settings "slots_k" (JInt 0) ;;
         def <- field settings "slots_def" (JInt 0) ;;
         bn <- field settings "slots_bn" (JInt 0) ;;
         Ok ("📝 Draft Details:" ++ nl
             ++ "- Draft ID: " ++ did ++ nl
             ++ "- Type: " ++ type ++ nl
             ++ "- Status: " ++ status ++ nl
             ++ "- League ID: " ++ league_id ++ nl
             ++ "- Season: " ++ season ++ nl
             ++ "- Sport: " ++ sport ++ nl
             ++ nl
             ++ "⚙️ Settings:" ++ nl
             ++ "- Teams: " ++ teams ++ nl
             ++ "- Rounds: " ++ rounds ++ nl
             ++ "- Pick Timer: " ++ pick_timer ++ " seconds" ++ nl
             ++ "- Scoring: " ++ scoring ++ nl
             ++ nl
             ++ "📊 Roster Slots:" ++ nl
             ++ "- QB: " ++ qb ++ nl
             ++ "- RB: " ++ rb ++ nl
             ++ "- WR: " ++ wr ++ nl
             ++ "- TE: " ++ te ++ nl
             ++ "- FLEX: " ++ flex ++ nl
             ++ "- K: " ++ k ++ nl
             ++ "- DEF: " ++ def ++ nl
             ++ "- BN: " ++ bn))
      w.

(** The body of the loop at lines 570-581. *)
Definition render_pick (pick : json) : result string :=
  metadata <- py_get pick "metadata" (JObj []) ;;
  first_name <- field metadata "first_name" (JStr EmptyString) ;;
  last_name <- field metadata "last_name" (JStr EmptyString) ;;
  let player_name := strip (first_name ++ " " ++ last_name) in
  position <- field metadata "position" NA ;;
  team <- field metadata "team" NA ;;
  pick_no <- field pick "pick_no" NA ;;
  round_num <- field pick "round" NA ;;
  roster_id <- field pick "roster_id" NA ;;
  is_keeper <- py_get pick "is_keeper" JNull ;;
  Ok ("Pick " ++ pick_no ++ " (Round " ++ round_num ++ "):" ++ nl
      ++ "  Player: " ++ (if is_empty player_name then "Unknown" else player_name)
      ++ " - " ++ position ++ " (" ++ team ++ ")" ++ nl
      ++ "  Roster ID: " ++ roster_id ++ nl
      ++ (if truthy is_keeper then "  ⭐ Keeper" ++ nl else EmptyString)
      ++ nl).

(** The report for a truthy answer: lines 568-586. *)
Definition format_picks (picks : json) : result string :=
  n <- py_len picks ;;
  first50 <- py_slice picks 50 ;;
  items <- py_iter first50 ;;
  body <- for_each 0 (fun _ pick => render_pick pick) items ;;
  n' <- py_len picks ;;
  Ok ("🎯 Draft Picks (" ++ str_of_nat n ++ " total):" ++ nl ++ nl
      ++ body
      ++ (if Nat.ltb 50 n'
          then "... and " ++ str_of_nat (n' - 50) ++ " more picks" ++ nl
          else EmptyString)).

Definition get_draft_picks (draft_id : string) (w : world) : string * world :=
  if is_empty (strip draft_id)
  then ("❌ Error: Draft ID is required", w)
  else
    try_request (BASE_URL ++ "/draft/" ++ draft_id ++ "/picks")
      (fun picks =>
         if negb (truthy picks)
         then Ok ("📭 No picks found for draft " ++ draft_id)
         else format_picks picks)
      w.

Definition get_draft_traded_picks (draft_id : string) (w : world)
    : string * world :=
  if is_empty (strip draft_id)
  then ("❌ Error: Draft ID is required", w)
  else
    try_request (BASE_URL ++ "/draft/" ++ draft_id ++ "/traded_picks")
      (fun picks =>
         if negb (truthy picks)
         then Ok ("📭 No traded picks found for draft " ++ draft_id)
         else
           n <- py_len picks ;;
           items <- py_iter picks ;;
           body <- for_each 1
                     (fun i pick =>
                        season <- field pick "season" NA ;;
                        round_num <- field pick "round" NA ;;
                        original <- field pick "roster_id" NA ;;
                        previous <- field pick "previous_owner_id" NA ;;
                        current <- field pick "owner_id" NA ;;
                        Ok (str_of_nat i ++ ". " ++ season ++ " Round " ++ round_num ++ nl
                            ++ "   Original: Roster " ++ original ++ nl
                            ++ "   Previous: Roster " ++ previous ++ nl
                            ++ "   Current: Roster " ++ current ++ nl ++ nl))
                     items ;;
           Ok ("🔄 Traded Draft Picks (" ++ str_of_nat n ++ " total):"
               ++ nl ++ nl ++ body))
      w.

(** [int(text) if text.strip() else fallback]; [None] is the ValueError. *)
Definition number_or (fallback : Z) (text : string) : option Z :=
  if is_empty (strip text) then Some fallback else int_of_str text.

Definition trend_type_error : string :=
  "❌ Error: trend_type must be 'add' or 'drop'".
Definition numbers_error : string :=
  "❌ Error: lookback_hours and limit must be valid numbers".

Definition trending_url (trend_type : string) (lookback lim : Z) : string :=
  BASE_URL ++ "/players/nfl/trending/" ++ trend_type
  ++ "?lookback_hours=" ++ str_of_Z lookback ++ "&limit=" ++ str_of_Z lim.

Definition get_trending_players (trend_type lookback_hours limit : string)
    (w : world) : string * world :=
  if negb (String.eqb trend_type "add" || String.eqb trend_type "drop")
  then (trend_type_error, w)
  else
    match number_or 24 lookback_hours with
    | None => (numbers_error, w)
    | Some lookback =>
        match number_or 25 limit with
        | None => (numbers_error, w)
        | Some lim =>
            try_request (trending_url trend_type lookback lim)
              (fun players =>
                 if negb (truthy players)
                 then Ok ("📭 No trending " ++ trend_type ++ " players found")
                 else
                   let emoji := if String.eqb trend_type "add" then "📈" else "📉" in
                   let header :=
                     emoji ++ " Trending " ++ str_upper trend_type
                     ++ " Players (Last " ++ str_of_Z lookback ++ " hours):"
                     ++ nl ++ nl in
                   items <- py_iter players ;;
                   body <- for_each 1
                             (fun i player =>
                                pid <- field player "player_id" NA ;;
                                count <- field player "count" (JInt 0) ;;
                                Ok (str_of_nat i ++ ". Player ID: " ++ pid ++ " - "
                                    ++ count ++ " " ++ trend_type ++ "s" ++ nl))
                             items ;;
                   Ok (header ++ body))
              w
        end
    end.

Definition player_not_found (player_id : string) : string :=
  "❌ Player ID " ++ player_id ++ " not found".

Definition get_player_report (player_id : string) (player : json) : result string :=
  first_name <- field player "first_name" (JStr EmptyString) ;;
  last_name <- field player "last_name" (JStr EmptyString) ;;
  position <- field player "position" NA ;;
  team <- field player "team" NA ;;
  number <- field player "number" NA ;;
  status <- field player "status" NA ;;
  age <- field player "age" NA ;;
  height <- field player "height" NA ;;
  weight <- field player "weight" NA ;;
  college <- field player "college" NA ;;
  years_exp <- field player "years_exp" NA ;;
  positions <- py_get player "fantasy_positions" (JArr []) ;;
  fantasy <- py_join ", " positions ;;
  injury <- py_get player "injury_status" JNull ;;
  Ok ("🏈 Player: " ++ first_name ++ " " ++ last_name ++ nl
      ++ "- Player ID: " ++ player_id ++ nl
      ++ "- Position: " ++ position ++ nl
      ++ "- Team: " ++ team ++ nl
      ++ "- Number: #" ++ number ++ nl
      ++ "- Status: " ++ status ++ nl
      ++ "- Age: " ++ age ++ nl
      ++ "- Height: " ++ height ++ nl
      ++ "- Weight: " ++ weight ++ nl
      ++ "- College: " ++ college ++ nl
      ++ "- Years Exp: " ++ years_exp ++ nl
      ++ "- Fantasy Positions: " ++ fantasy
      ++ (if truthy injury
          then nl ++ "⚠️ Injury Status: " ++ py_str injury
          else EmptyString)).

Definition search_player_info (player_id : string) (w : world) : string * world :=
  if is_empty (strip player_id)
  then ("❌ Error: Player ID is required", w)
  else
    try_request (BASE_URL ++ "/players/nfl")
      (fun all_players =>
         player <- py_get all_players player_id JNull ;;
         if negb (truthy player)
         then Ok (player_not_found player_id)
         else get_player_report player_id player)
      w.

(** *** The catalogue *)

(** A call of one of the tools registered with [@mcp.tool()]. *)
Inductive tool_call : Type :=
| GetUser (username : string)
| GetUserLeagues (user_id sport season : string)
| GetLeague (league_id : string)
| GetLeagueRosters (league_id : string)
| GetLeagueUsers (league_id : string)
| GetLeagueMatchups (league_id week : string)
| GetWinnersBracket (league_id : string)
| GetLosersBracket (league_id : string)
| GetLeagueTransactions (league_id week : string)
| GetTradedPicks (league_id : string)
| GetNflState
| GetUserDrafts (user_id sport season : string)
| GetLeagueDrafts (league_id : string)
| GetDraft (draft_id : string)
| GetDraftPicks (draft_id : string)
| GetDraftTradedPicks (draft_id : string)
| GetTrendingPlayers (trend_type lookback_hours limit : string)
| SearchPlayerInfo (player_id : string).

Definition invoke (call : tool_call) : world -> string * world :=
  match call with
  | GetUser username => get_user username
  | GetUserLeagues user_id sport season => get_user_leagues user_id sport season
  | GetLeague league_id => get_league league_id
  | GetLeagueRosters league_id => get_league_rosters league_id
  | GetLeagueUsers league_id => get_league_users league_id
  | GetLeagueMatchups league_id week => get_league_matchups league_id week
  | GetWinnersBracket league_id => get_winners_bracket league_id
  | GetLosersBracket league_id => get_losers_bracket league_id
  | GetLeagueTransactions league_id week => get_league_transactions league_id week
  | GetTradedPicks league_id => get_traded_picks league_id
  | GetNflState => get_nfl_state
  | GetUserDrafts user_id sport season => get_user_drafts user_id sport season
  | GetLeagueDrafts league_id => get_league_drafts league_id
  | GetDraft draft_id => get_draft draft_id
  | GetDraftPicks draft_id => get_draft_picks draft_id
  | GetDraftTradedPicks draft_id => get_draft_traded_picks draft_id
  | GetTrendingPlayers trend_type lookback_hours limit =>
      get_trending_players trend_type lookback_hours limit
  | SearchPlayerInfo player_id => search_player_info player_id
  end.

(** The [league_id] argument of the tools that take one. *)
Definition league_argument (call : tool_call) : option string :=
  match call with
  | GetLeague l | GetLeagueRosters l | GetLeagueUsers l | GetLeagueMatchups l _
  | GetWinnersBracket l | GetLosersBracket l | GetLeagueTransactions l _
  | GetTradedPicks l | GetLeagueDrafts l => Some l
  | _ => None
  end.

End Server.

(** ** A runtime for ASCII text

    [cpython_ascii] computes what CPython computes as long as the text is
    ASCII and free of quotes, backslashes and control characters; it is
    the runtime at which the concrete examples below are evaluated. *)

Definition type_name (v : json) : string :=
  match v with
  | JNull => "NoneType"
  | JBool _ => "bool"
  | JInt _ => "int"
  | JStr _ => "str"
  | JArr _ => "list"
  | JObj _ => "dict"
  end.

Definition digit_of (a : ascii) : option Z :=
  let n := N_of_ascii a in
  if ((48 <=? n) && (n <=? 57))%N then Some (Z.of_N n - 48)%Z else None.

(** Decimal digits, single underscores allowed between two digits. *)
Fixpoint digits_value (acc : Z) (after_digit : bool) (s : string) : option Z :=
  match s with
  | EmptyString => if after_digit then Some acc else None
  | String a rest =>
      match digit_of a with
      | Some d => digits_value (10 * acc + d)%Z true rest
      | None =>
          if Ascii.eqb a "_" && after_digit
          then digits_value acc false rest
          else None
      end
  end.

Definition ascii_int (s : string) : option Z :=
  match strip s with
  | String "-" rest => option_map Z.opp (digits_value 0 false rest)
  | String "+" rest => digits_value 0 false rest
  | digits => digits_value 0 false digits
  end.

Definition upper_ascii (a : ascii) : ascii :=
  let n := N_of_ascii a in
  if ((97 <=? n) && (n <=? 122))%N then ascii_of_N (n - 32) else a.

Fixpoint ascii_upper (s : string) : string :=
  match s with
  | EmptyString => EmptyString
  | String a rest => String (upper_ascii a) (ascii_upper rest)
  end.

Fixpoint ascii_repr (v : json) : string :=
  match v with
  | JNull => "None"
  | JBool true => "True"
  | JBool false => "False"
  | JInt n => str_of_Z n
  | JStr s => "'" ++ s ++ "'"
  | JArr items => "[" ++ join ", " (map ascii_repr items) ++ "]"
  | JObj fields =>
      "{"
      ++ join ", "
           (map (fun kv => match kv with
                           | (k, x) => "'" ++ k ++ "': " ++ ascii_repr x
                           end)
                fields)
      ++ "}"
  end.

Definition cpython_fault_text (f : fault) : string :=
  match f with
  | NoAttribute v name =>
      "'" ++ type_name v ++ "' object has no attribute '" ++ name ++ "'"
  | NoLen v => "object of type '" ++ type_name v ++ "' has no len()"
  | NotIterable v => "'" ++ type_name v ++ "' object is not iterable"
  | NoSlice v =>
      match v with
      | JObj _ => "unhashable type: 'slice'"
      | _ => "'" ++ type_name v ++ "' object is not subscriptable"
      end
  | NoJoin _ => "can only join an iterable"
  | JoinItem pos v =>
      "sequence item " ++ str_of_nat pos ++ ": expected str instance, "
      ++ type_name v ++ " found"
  | Unhashable v => "unhashable type: '" ++ type_name v ++ "'"
  end.

#[export] Instance cpython_ascii : PyRuntime := {
  int_of_str := ascii_int;
  str_upper := ascii_upper;
  container_repr := ascii_repr;
  fault_text := cpython_fault_text
}.

(** ** Reading the claims

    Definitions that follow the words of the specification, to be compared
    with the code above. *)

(** The [matchup_id] of an entry, [None] when the key is absent. *)
Definition matchup_id (entry : json) : json :=
  match entry with
  | JObj fields =>
      match lookup "matchup_id" fields with Some x => x | None => JNull end
  | _ => JNull
  end.

(** The distinct ids in the order in which each first appears. *)
Fixpoint first_seen (ids : list json) : list json :=
  match ids with
  | [] => []
  | k :: rest => k :: filter (fun k' => negb (key_eqb k k')) (first_seen rest)
  end.

(** Grouping as the specification words it: one group per distinct id, in
    first-seen order, each holding the entries with that id in their
    original order. *)
Definition grouped (entries : list json) : groups :=
  map (fun k => (k, filter (fun e => key_eqb k (matchup_id e)) entries))
      (first_seen (map matchup_id entries)).

Definition is_object (v : json) : Prop := exists fields, v = JObj fields.

(** An entry the grouping loop accepts: a dict whose id can be a key. *)
Definition groupable (entry : json) : Prop :=
  is_object entry /\ hashable (matchup_id entry) = true.

(** A key that is absent, or present with a dict as its value. *)
Definition absent_or_object (key : string) (fields : list (string * json)) : Prop :=
  lookup key fields = None \/ exists inner, lookup key fields = Some (JObj inner).

(** A draft pick the loop can render: a dict whose metadata, if any, is a dict. *)
Definition pick_shaped (pick : json) : Prop :=
  exists fields, pick = JObj fields /\ absent_or_object "metadata" fields.

(** A key that is absent, or present with a list as its value. *)
Definition absent_or_list (key : string) (fields : list (string * json)) : Prop :=
  lookup key fields = None \/ exists items, lookup key fields = Some (JArr items).

(** A starters line as the specification words it: at most the first 5
    names, then an ellipsis marker exactly when there are more than 5. *)
Definition first_five (names : list string) : string :=
  join ", " (firstn 5 names)
  ++ (if Nat.ltb 5 (length names) then "..." else EmptyString).

(** Sixty-three picks, numbered from 1, twelve to a round. *)
Definition sample_pick (i : nat) : json :=
  JObj [("pick_no", JInt (Z.of_nat i));
        ("round", JInt (Z.of_nat ((i - 1) / 12 + 1)));
        ("roster_id", JInt (Z.of_nat ((i - 1) mod 12 + 1)));
        ("metadata",
         JObj [("first_name", JStr "Player"); ("last_name", JStr (str_of_nat i));
               ("position", JStr "RB"); ("team", JStr "DEN")])].

Definition sample_picks : list json := map sample_pick (seq 1 63).

(** Ids of which no two are equal as dict keys. *)
Definition apart (ids : list json) : Prop :=
  ForallOrdPairs (fun a b => key_eqb a b = false) ids.

(** An entry of a matchups answer with nothing but its ids. *)
Definition entry (mid roster : Z) : json :=
  JObj [("matchup_id", JInt mid); ("roster_id", JInt roster)].

(** The log of a world once [url] has been requested. *)
Definition after_request (w : world) (url : string) : list string :=
  (requests w ++ [url])%list.

(** A remote that answers every request with [j]. *)
Definition answering (j : json) : world :=
  {| remote := fun _ => Body j; requests := [] |}.

(** A remote that answers every request with a status outside 2xx. *)
Definition refusing (code : Z) (text : string) : world :=
  {| remote := fun _ => Status code text; requests := [] |}.

(** ** Further vocabulary *)

(** A remote that fails every request before an answer arrives. *)
Definition unreachable (msg : string) : world :=
  {| remote := fun _ => Broken msg; requests := [] |}.

(** The call with its [league_id] argument replaced, for the tools that
    take one. *)
Definition with_league_argument (call : tool_call) (league_id : string) : tool_call :=
  match call with
  | GetLeague _ => GetLeague league_id
  | GetLeagueRosters _ => GetLeagueRosters league_id
  | GetLeagueUsers _ => GetLeagueUsers league_id
  | GetLeagueMatchups _ week => GetLeagueMatchups league_id week
  | GetWinnersBracket _ => GetWinnersBracket league_id
  | GetLosersBracket _ => GetLosersBracket league_id
  | GetLeagueTransactions _ week => GetLeagueTransactions league_id week
  | GetTradedPicks _ => GetTradedPicks league_id
  | GetLeagueDrafts _ => GetLeagueDrafts league_id
  | other => other
  end.

(** ** The reports, written out

    The text a report has to show for an answer of the shape the API
    gives, stated without the formatters of the code: a field is the
    value under its key or the placeholder, the points of a team are the
    override when there is one, the starters are [first_five], a pick is
    its four lines. *)

(** The value under [key] as text, the placeholder when the key is absent. *)
Definition shown {RT : PyRuntime} (fields : list (string * json))
    (key placeholder : string) : string :=
  match lookup key fields with
  | Some x => py_str x
  | None => placeholder
  end.

(** The strings of a list value. *)
Definition names_in (v : json) : list string :=
  match v with
  | JArr items =>
      flat_map (fun item => match item with JStr s => [s] | _ => [] end) items
  | _ => []
  end.

Definition starters_of (fields : list (string * json)) : list string :=
  match lookup "starters" fields with
  | Some v => names_in v
  | None => []
  end.

(** The points of a team: the override, marked, when [custom_points] is
    there and not null; the score otherwise. *)
Definition points_text {RT : PyRuntime} (fields : list (string * json)) : string :=
  match lookup "custom_points" fields with
  | None | Some JNull => shown fields "points" "0"
  | Some custom => py_str custom ++ " (override)"
  end.

(** The two lines of a team in a matchup. *)
Definition team_text {RT : PyRuntime} (team : json) : string :=
  match team with
  | JObj fields =>
      "  Roster " ++ shown fields "roster_id" "N/A" ++ ": "
      ++ points_text fields ++ " pts" ++ nl
      ++ "    Starters: " ++ first_five (starters_of fields) ++ nl
  | _ => EmptyString
  end.

(** A group: its title line, its teams in their order, an empty line. *)
Definition group_text {RT : PyRuntime} (g : json * list json) : string :=
  "⚔️ Matchup " ++ py_str (fst g) ++ ":" ++ nl
  ++ concat_all (map team_text (snd g))
  ++ nl.

(** An entry of a matchups answer as the API gives it: a dict whose id
    can be a key and whose starters, if any, are a list of names. *)
Definition matchup_shaped (entry : json) : Prop :=
  exists fields,
    entry = JObj fields
    /\ hashable (matchup_id entry) = true
    /\ (lookup "starters" fields = None
        \/ exists names, lookup "starters" fields = Some (JArr (map JStr names))).

Definition metadata_of (fields : list (string * json)) : list (string * json) :=
  match lookup "metadata" fields with
  | Some (JObj inner) => inner
  | _ => []
  end.

(** The lines of one draft pick. *)
Definition pick_text {RT : PyRuntime} (pick : json) : string :=
  match pick with
  | JObj fields =>
      let metadata := metadata_of fields in
      let name :=
        strip (shown metadata "first_name" EmptyString ++ " "
               ++ shown metadata "last_name" EmptyString) in
      "Pick " ++ shown fields "pick_no" "N/A"
      ++ " (Round " ++ shown fields "round" "N/A" ++ "):" ++ nl
      ++ "  Player: " ++ (if is_empty name then "Unknown" else name)
      ++ " - " ++ shown metadata "position" "N/A"
      ++ " (" ++ shown metadata "team" "N/A" ++ ")" ++ nl
      ++ "  Roster ID: " ++ shown fields "roster_id" "N/A" ++ nl
      ++ (if match lookup "is_keeper" fields with
             | Some flag => truthy flag
             | None => false
             end
          then "  ⭐ Keeper" ++ nl
          else EmptyString)
      ++ nl
  | _ => EmptyString
  end.

(** * Theorems *)

Section SharedFacts.
Context {RT : PyRuntime}.

(** ** Shared facts *)

Lemma is_empty_iff (s : string) : is_empty s = true <-> s = EmptyString.
Proof.
  destruct s; simpl; split; intro H; try reflexivity; discriminate H.
Qed.

Lemma is_empty_false_iff (s : string) : is_empty s = false <-> s <> EmptyString.
Proof.
  destruct s; simpl; split; intro H; try congruence.
Qed.

Lemma contains_middle (pre needle post : string) :
  contains (pre ++ needle ++ post) needle.
Proof. exists pre, post. reflexivity. Qed.

Lemma string_app_nil_r (s : string) : s ++ EmptyString = s.
Proof. induction s; simpl; congruence. Qed.

Lemma string_app_assoc (a b c : string) : (a ++ b) ++ c = a ++ b ++ c.
Proof. induction a; simpl; congruence. Qed.

Lemma not_self_extended {A : Type} (l : list A) (x : A) : l <> (l ++ [x])%list.
Proof.
  intro H. apply (f_equal (@length A)) in H.
  rewrite length_app in H. simpl in H. lia.
Qed.

(** A tool never issues more than the one request of its [try] block. *)
Lemma try_request_log (url : string) (body : json -> result string) (w : world) :
  requests (snd (try_request url body w)) = (requests w ++ [url])%list.
Proof. reflexivity. Qed.

Lemma try_request_remote (url : string) (body : json -> result string) (w : world) :
  remote (snd (try_request url body w)) = remote w.
Proof. reflexivity. Qed.

Lemma try_request_body (url : string) (body : json -> result string) (w : world)
    (j : json) :
  remote w url = Body j ->
  fst (try_request url body w) = report (body j).
Proof.
  intro H. unfold try_request, fetch_json. rewrite H. reflexivity.
Qed.

Lemma try_request_status (url : string) (body : json -> result string) (w : world)
    (code : Z) (text : string) :
  remote w url = Status code text ->
  fst (try_request url body w)
  = "❌ Error: " ++ "API Error " ++ str_of_Z code ++ ": " ++ text.
Proof.
  intro H. unfold try_request, fetch_json. rewrite H. reflexivity.
Qed.

(** Every tool either answers from its arguments alone, leaving the world
    as it was, or runs one [try] block. *)
Lemma invoke_shape (LEAGUE_ID : string) (call : tool_call) (w : world) :
  (exists text, invoke LEAGUE_ID call w = (text, w))
  \/ (exists url body, invoke LEAGUE_ID call w = try_request url body w).
Proof.
  destruct call; cbn [invoke];
    unfold get_user, get_user_leagues, get_league, get_league_rosters,
      get_league_users, get_league_matchups, get_winners_bracket,
      get_losers_bracket, get_league_transactions, get_traded_picks,
      get_nfl_state, get_user_drafts, get_league_drafts, get_draft,
      get_draft_picks, get_draft_traded_picks, get_trending_players,
      search_player_info, with_league;
    repeat match goal with
      | |- context [if is_empty ?s then _ else _] => destruct (is_empty s)
      | |- context [if negb ?b then _ else _] => destruct b; cbn [negb]
      | |- context [match number_or ?d ?s with _ => _ end] => destruct (number_or d s)
      end;
    solve [ right; do 2 eexists; reflexivity | left; eexists; reflexivity ].
Qed.

End SharedFacts.

(** ** League identifier resolution *)

(** C1.  A tool that takes a league identifier, called with a [league_id]
    that is empty after trimming while the default [LEAGUE_ID] is empty
    after trimming too, returns the missing-parameter text, which names
    the parameter and the environment fallback, and leaves the world as
    it was: no request is issued. *)
Theorem missing_league_fails_before_request {RT : PyRuntime}
    (LEAGUE_ID : string) (call : tool_call) (league_id : string) (w : world) :
  league_argument call = Some league_id ->
  strip league_id = EmptyString ->
  strip LEAGUE_ID = EmptyString ->
  invoke LEAGUE_ID call w = (league_required, w)
  /\ contains league_required "League ID is required"
  /\ contains league_required "league_id"
  /\ contains league_required "SLEEPER_LEAGUE_ID environment variable".
Proof.
  intros Harg Hid Hdefault. split.
  - destruct call; simpl in Harg; try discriminate Harg;
      injection Harg as ->; cbn [invoke];
      unfold get_league, get_league_rosters, get_league_users,
        get_league_matchups, get_winners_bracket, get_losers_bracket,
        get_league_transactions, get_traded_picks, get_league_drafts,
        with_league, resolve_league;
      rewrite Hid; cbn [is_empty]; rewrite Hdefault; reflexivity.
  - repeat split.
    + exists "❌ Error: ", " (provide league_id or set SLEEPER_LEAGUE_ID environment variable)".
      reflexivity.
    + exists "❌ Error: League ID is required (provide ",
        " or set SLEEPER_LEAGUE_ID environment variable)".
      reflexivity.
    + exists "❌ Error: League ID is required (provide league_id or set ", ")".
      reflexivity.
Qed.

Lemma missing_league_fails_before_request_witness :
  invoke "  " (GetLeagueMatchups " " "3") (answering JNull)
  = (league_required, answering JNull).
Proof.
  apply (missing_league_fails_before_request
           "  " (GetLeagueMatchups " " "3") " " (answering JNull));
    reflexivity.
Defined.

(** ** Trending players: argument checks *)

(** C5.  A [trend_type] other than add and drop is refused with the
    invalid-argument text, whatever the other arguments are, and no
    request is issued. *)
Theorem unknown_trend_type_is_refused {RT : PyRuntime}
    (trend_type lookback_hours limit : string) (w : world) :
  trend_type <> "add" ->
  trend_type <> "drop" ->
  get_trending_players trend_type lookback_hours limit w = (trend_type_error, w).
Proof.
  intros Hadd Hdrop. unfold get_trending_players.
  apply String.eqb_neq in Hadd. apply String.eqb_neq in Hdrop.
  rewrite Hadd, Hdrop. reflexivity.
Qed.

Lemma unknown_trend_type_is_refused_witness :
  get_trending_players "ADD" "24" "25" (answering JNull)
  = (trend_type_error, answering JNull).
Proof.
  apply (unknown_trend_type_is_refused "ADD" "24" "25" (answering JNull));
    discriminate.
Defined.






(** ** Failures of the remote API *)

(** C8.  When the request a tool issues is answered with a status outside
    2xx, the tool returns an error report made of the failure marker, the
    status code and the body of the answer as received; in particular the
    report contains the code and contains the body. *)
Theorem remote_status_is_reported {RT : PyRuntime}
    (LEAGUE_ID : string) (call : tool_call) (w : world)
    (url : string) (code : Z) (text : string) :
  requests (snd (invoke LEAGUE_ID call w)) = (requests w ++ [url])%list ->
  remote w url = Status code text ->
  fst (invoke LEAGUE_ID call w)
  = "❌ Error: API Error " ++ str_of_Z code ++ ": " ++ text
  /\ contains (fst (invoke LEAGUE_ID call w)) (str_of_Z code)
  /\ contains (fst (invoke LEAGUE_ID call w)) text.
Proof.
  intros Hlog Hanswer.
  assert (fst (invoke LEAGUE_ID call w)
          = "❌ Error: API Error " ++ str_of_Z code ++ ": " ++ text) as Hout.
  { destruct (invoke_shape LEAGUE_ID call w) as [[msg Hquiet] | (u & body & Htry)].
    - rewrite Hquiet in Hlog. simpl in Hlog.
      exfalso. exact (not_self_extended _ _ Hlog).
    - rewrite Htry in Hlog |- *. rewrite try_request_log in Hlog.
      apply app_inv_head in Hlog. injection Hlog as ->.
      rewrite (try_request_status url body w code text Hanswer). reflexivity. }
  rewrite Hout. split; [reflexivity | split].
  - exact (contains_middle "❌ Error: API Error " (str_of_Z code) (": " ++ text)).
  - exists ("❌ Error: API Error " ++ str_of_Z code ++ ": "), EmptyString.
    rewrite string_app_nil_r, !string_app_assoc. reflexivity.
Qed.

Lemma remote_status_is_reported_witness :
  fst (invoke EmptyString (GetLeague "1048") (refusing 404 "league not found"))
  = "❌ Error: API Error 404: league not found"
  /\ contains
       (fst (invoke EmptyString (GetLeague "1048") (refusing 404 "league not found")))
       "404"
  /\ contains
       (fst (invoke EmptyString (GetLeague "1048") (refusing 404 "league not found")))
       "league not found".
Proof.
  apply (remote_status_is_reported EmptyString (GetLeague "1048")
           (refusing 404 "league not found")
           "https://api.sleeper.app/v1/league/1048" 404 "league not found");
    reflexivity.
Defined.

(** ** Looking a player up in the directory *)

(** C9.  When the directory that comes back is a mapping without the key
    [player_id], the answer is the not-found text naming that id.  It is
    not one of the no-data texts of the other tools, which open with the
    empty-mailbox marker; this holds for an empty directory too. *)
Theorem absent_player_is_not_found {RT : PyRuntime}
    (player_id : string) (w : world) (directory : list (string * json)) :
  strip player_id <> EmptyString ->
  remote w (BASE_URL ++ "/players/nfl") = Body (JObj directory) ->
  lookup player_id directory = None ->
  fst (search_player_info player_id w)
  = "❌ Player ID " ++ player_id ++ " not found"
  /\ forall rest, fst (search_player_info player_id w) <> "📭" ++ rest.
Proof.
  intros Hid Hanswer Habsent.
  assert (fst (search_player_info player_id w)
          = "❌ Player ID " ++ player_id ++ " not found") as Hout.
  { unfold search_player_info. apply is_empty_false_iff in Hid. rewrite Hid.
    rewrite (try_request_body _ _ w _ Hanswer).
    unfold py_get. rewrite Habsent. reflexivity. }
  rewrite Hout. split; [reflexivity |].
  intros rest Heq. simpl in Heq. discriminate Heq.
Qed.

Lemma absent_player_is_not_found_witness :
  fst (search_player_info "9999"
         (answering (JObj [("4046", JObj [("first_name", JStr "Patrick")])])))
  = "❌ Player ID 9999 not found".
Proof.
  apply (absent_player_is_not_found "9999"
           (answering (JObj [("4046", JObj [("first_name", JStr "Patrick")])]))
           [("4046", JObj [("first_name", JStr "Patrick")])]);
    [discriminate | reflexivity | reflexivity].
Defined.

(** C10.  When the directory holds the key [player_id] with a value that
    is false in Python (null, an empty object, an empty string, and also
    zero, false or an empty list), the answer is the same not-found text
    as for an absent key: no player report is rendered. *)
Theorem falsy_player_is_not_found {RT : PyRuntime}
    (player_id : string) (w : world) (directory : list (string * json))
    (player : json) :
  strip player_id <> EmptyString ->
  remote w (BASE_URL ++ "/players/nfl") = Body (JObj directory) ->
  lookup player_id directory = Some player ->
  player = JNull \/ player = JObj [] \/ player = JStr EmptyString
  \/ truthy player = false ->
  fst (search_player_info player_id w)
  = "❌ Player ID " ++ player_id ++ " not found".
Proof.
  intros Hid Hanswer Hpresent Hfalsy.
  assert (truthy player = false) as Hfalse
    by (destruct Hfalsy as [-> | [-> | [-> | H]]]; auto).
  unfold search_player_info. apply is_empty_false_iff in Hid. rewrite Hid.
  rewrite (try_request_body _ _ w _ Hanswer).
  unfold py_get. rewrite Hpresent. cbn [bind]. rewrite Hfalse. reflexivity.
Qed.

Lemma falsy_player_is_not_found_witness :
  fst (search_player_info "4046" (answering (JObj [("4046", JNull)])))
  = "❌ Player ID 4046 not found"
  /\ fst (search_player_info "4046" (answering (JObj [("4046", JObj [])])))
     = "❌ Player ID 4046 not found"
  /\ fst (search_player_info "4046"
            (answering (JObj [("4046", JStr EmptyString)])))
     = "❌ Player ID 4046 not found".
Proof.
  split; [| split].
  - apply (falsy_player_is_not_found "4046"
             (answering (JObj [("4046", JNull)])) [("4046", JNull)] JNull);
      [discriminate | reflexivity | reflexivity | left; reflexivity].
  - apply (falsy_player_is_not_found "4046"
             (answering (JObj [("4046", JObj [])])) [("4046", JObj [])] (JObj []));
      [discriminate | reflexivity | reflexivity | right; left; reflexivity].
  - apply (falsy_player_is_not_found "4046"
             (answering (JObj [("4046", JStr EmptyString)]))
             [("4046", JStr EmptyString)] (JStr EmptyString));
      [discriminate | reflexivity | reflexivity | right; right; left; reflexivity].
Defined.

(** ** Inline lists: the starters line *)

Lemma all_str_names {RT : PyRuntime} (pos : nat) (names : list string) :
  all_str pos (map JStr names) = Ok names.
Proof.
  revert pos. induction names as [| name rest IH]; intro pos; simpl.
  - reflexivity.
  - rewrite IH. reflexivity.
Qed.

Lemma starters_shown_names {RT : PyRuntime}
    (fields : list (string * json)) (names : list string) :
  lookup "starters" fields = Some (JArr (map JStr names)) ->
  starters_shown (JObj fields) = Ok (first_five names).
Proof.
  intro H. unfold starters_shown, py_get. rewrite H. cbn [bind py_slice].
  rewrite firstn_map. unfold py_join. cbn [py_iter].
  rewrite all_str_names. cbn [bind py_len]. rewrite length_map. reflexivity.
Qed.

Lemma ends_with_self (t : string) : exists pre, t = pre ++ t.
Proof. exists EmptyString. reflexivity. Qed.

Lemma ends_with_app (a s t : string) :
  (exists pre, s = pre ++ t) -> exists pre, a ++ s = pre ++ t.
Proof.
  intros [pre ->]. exists (a ++ pre). now rewrite string_app_assoc.
Qed.

Lemma ok_ends_with (s t : string) :
  (exists pre, s = pre ++ t) -> exists pre, Ok s = Ok (pre ++ t).
Proof. intros [pre ->]. now exists pre. Qed.

Ltac ends_with :=
  apply ok_ends_with;
  repeat first [ apply ends_with_self | apply ends_with_app ].

(** C7.  For a roster, and for a matchup team, whose starters are a list
    of names, the starters text is [first_five]: the first 5 names at
    most, joined by commas, followed by the ellipsis marker exactly when
    the list has more than 5 names.  The roster report ends with that
    line, and the team report ends with it. *)
Theorem starters_line_is_first_five {RT : PyRuntime}
    (fields : list (string * json)) (names : list string) :
  lookup "starters" fields = Some (JArr (map JStr names)) ->
  starters_shown (JObj fields) = Ok (first_five names)
  /\ (forall index : nat,
        absent_or_object "settings" fields ->
        absent_or_list "players" fields ->
        exists pre,
          format_roster (JObj fields) index
          = Ok (pre ++ nl ++ "- Starters: " ++ first_five names))
  /\ (exists pre,
        render_team (JObj fields)
        = Ok (pre ++ nl ++ "    Starters: " ++ first_five names ++ nl)).
Proof.
  intro Hstarters.
  pose proof (starters_shown_names fields names Hstarters) as Hshown.
  split; [exact Hshown | split].
  - intros index Hsettings Hplayers.
    unfold format_roster. rewrite Hshown.
    unfold field, py_get. cbn [bind].
    destruct Hplayers as [-> | [items ->]];
      destruct Hsettings as [-> | [inner ->]];
      cbn [bind py_len]; ends_with.
  - unfold render_team. rewrite Hshown.
    unfold field, py_get. cbn [bind]. ends_with.
Qed.

Lemma starters_line_is_first_five_witness :
  starters_shown
    (JObj [("roster_id", JInt 3);
           ("starters",
            JArr (map JStr ["4046"; "4034"; "6794"; "4981"; "5849"; "1466"; "DEN"]))])
  = Ok "4046, 4034, 6794, 4981, 5849..."
  /\ starters_shown
       (JObj [("roster_id", JInt 4);
              ("starters", JArr (map JStr ["4046"; "4034"; "6794"]))])
     = Ok "4046, 4034, 6794".
Proof.
  split.
  - apply (starters_line_is_first_five
             [("roster_id", JInt 3);
              ("starters",
               JArr (map JStr ["4046"; "4034"; "6794"; "4981"; "5849"; "1466"; "DEN"]))]
             ["4046"; "4034"; "6794"; "4981"; "5849"; "1466"; "DEN"]).
    reflexivity.
  - apply (starters_line_is_first_five
             [("roster_id", JInt 4);
              ("starters", JArr (map JStr ["4046"; "4034"; "6794"]))]
             ["4046"; "4034"; "6794"]).
    reflexivity.
Defined.

(** The two cases the specification singles out, on whole reports. *)
Example seven_starters_roster :
  format_roster
    (JObj [("roster_id", JInt 3); ("owner_id", JStr "u1");
           ("starters",
            JArr (map JStr ["4046"; "4034"; "6794"; "4981"; "5849"; "1466"; "DEN"]))])
    0
  = Ok ("📊 Roster 1 (ID: 3)" ++ nl
        ++ "- Owner: u1" ++ nl
        ++ "- Record: 0W - 0L - 0T" ++ nl
        ++ "- Points For: 0.0" ++ nl
        ++ "- Points Against: 0.0" ++ nl
        ++ "- Players: 0 total" ++ nl
        ++ "- Starters: 4046, 4034, 6794, 4981, 5849...").
Proof. reflexivity. Qed.

Example three_starters_team :
  render_team
    (JObj [("roster_id", JInt 4); ("points", JInt 101);
           ("starters", JArr (map JStr ["4046"; "4034"; "6794"]))])
  = Ok ("  Roster 4: 101 pts" ++ nl
        ++ "    Starters: 4046, 4034, 6794" ++ nl).
Proof. reflexivity. Qed.

(** ** Large results: draft picks *)

Lemma for_each_rendered {RT : PyRuntime} {A : Type} (f : A -> result string)
    (start : nat) (items : list A) (texts : list string) :
  Forall2 (fun x text => f x = Ok text) items texts ->
  for_each start (fun _ x => f x) items = Ok (concat_all texts).
Proof.
  intro H. revert start.
  induction H as [| x text items texts Hx _ IH]; intro start; simpl.
  - reflexivity.
  - rewrite Hx, IH. reflexivity.
Qed.

Lemma field_shown {RT : PyRuntime} (fields : list (string * json))
    (key placeholder : string) :
  field (JObj fields) key (JStr placeholder) = Ok (shown fields key placeholder).
Proof. unfold field, py_get, shown. cbn [bind]. now destruct (lookup key fields). Qed.

Lemma rendered_as {RT : PyRuntime} {A : Type} (f : A -> result string)
    (g : A -> string) (items : list A) :
  Forall (fun x => f x = Ok (g x)) items ->
  Forall2 (fun x text => f x = Ok text) items (map g items).
Proof. induction 1; simpl; constructor; assumption. Qed.

(** A pick of the expected shape renders as [pick_text]. *)
Lemma render_pick_text {RT : PyRuntime} (pick : json) :
  pick_shaped pick -> render_pick pick = Ok (pick_text pick).
Proof.
  intros (fields & -> & Hmeta).
  assert (py_get (JObj fields) "metadata" (JObj []) = Ok (JObj (metadata_of fields)))
    as Hget
    by (unfold py_get, metadata_of;
        destruct Hmeta as [-> | [inner ->]]; reflexivity).
  unfold render_pick, pick_text, NA. rewrite Hget. cbn [bind].
  rewrite !field_shown. cbn [bind].
  unfold py_get. cbn [bind].
  destruct (lookup "is_keeper" fields); reflexivity.
Qed.

(** C6.  For a non-empty list of picks the report is: a header stating
    the size of the whole list; then the lines of the first 50 picks at
    most, each pick with its number, round, player, position, team and
    roster (what comes after the fiftieth pick is not even inspected);
    then, exactly when the list has more than 50 entries, a line stating
    how many picks were left out. *)
Theorem draft_picks_report_is_capped {RT : PyRuntime}
    (draft_id : string) (w : world) (picks : list json) :
  strip draft_id <> EmptyString ->
  remote w (BASE_URL ++ "/draft/" ++ draft_id ++ "/picks") = Body (JArr picks) ->
  picks <> [] ->
  Forall pick_shaped (firstn 50 picks) ->
  fst (get_draft_picks draft_id w)
  = "🎯 Draft Picks (" ++ str_of_nat (length picks) ++ " total):" ++ nl ++ nl
    ++ concat_all (map pick_text (firstn 50 picks))
    ++ (if Nat.ltb 50 (length picks)
        then "... and " ++ str_of_nat (length picks - 50) ++ " more picks" ++ nl
        else EmptyString)
  /\ length (map pick_text (firstn 50 picks)) = Nat.min 50 (length picks).
Proof.
  intros Hid Hanswer Hnonempty Hshaped. split.
  - unfold get_draft_picks. apply is_empty_false_iff in Hid. rewrite Hid.
    rewrite (try_request_body _ _ w _ Hanswer).
    assert (truthy (JArr picks) = true) as ->
      by (destruct picks; [congruence | reflexivity]).
    cbn [negb]. unfold format_picks.
    cbn [py_len py_slice py_iter bind].
    rewrite (for_each_rendered render_pick 0 (firstn 50 picks)
               (map pick_text (firstn 50 picks))).
    + reflexivity.
    + apply rendered_as. apply Forall_forall. intros p Hp.
      rewrite Forall_forall in Hshaped. apply render_pick_text, Hshaped, Hp.
  - rewrite length_map. apply length_firstn.
Qed.

Lemma draft_picks_report_is_capped_witness :
  fst (get_draft_picks "983" (answering (JArr sample_picks)))
  = "🎯 Draft Picks (63 total):" ++ nl ++ nl
    ++ concat_all
         (map (fun i =>
                 "Pick " ++ str_of_nat i ++ " (Round "
                 ++ str_of_nat ((i - 1) / 12 + 1) ++ "):" ++ nl
                 ++ "  Player: Player " ++ str_of_nat i ++ " - RB (DEN)" ++ nl
                 ++ "  Roster ID: " ++ str_of_nat ((i - 1) mod 12 + 1) ++ nl
                 ++ nl)
              (seq 1 50))
    ++ "... and 13 more picks" ++ nl.
Proof.
  destruct (draft_picks_report_is_capped "983" (answering (JArr sample_picks))
              sample_picks) as [Hout _].
  - discriminate.
  - reflexivity.
  - discriminate.
  - unfold sample_picks.
    repeat (constructor; [eexists; split; [reflexivity | right; eexists; reflexivity] |]).
    constructor.
  - rewrite Hout. vm_compute. reflexivity.
Defined.

(** The sixty-three sample picks, as the tool reports them. *)
Example sixty_three_picks_report :
  fst (get_draft_picks "983" (answering (JArr sample_picks)))
  = "🎯 Draft Picks (63 total):" ++ nl ++ nl
    ++ concat_all
         (map (fun i =>
                 "Pick " ++ str_of_nat i ++ " (Round "
                 ++ str_of_nat ((i - 1) / 12 + 1) ++ "):" ++ nl
                 ++ "  Player: Player " ++ str_of_nat i ++ " - RB (DEN)" ++ nl
                 ++ "  Roster ID: " ++ str_of_nat ((i - 1) mod 12 + 1) ++ nl
                 ++ nl)
              (seq 1 50))
    ++ "... and 13 more picks" ++ nl.
Proof. vm_compute. reflexivity. Qed.

(** ** Grouping of matchups *)

Lemma key_eqb_sym (a b : json) : key_eqb a b = key_eqb b a.
Proof.
  destruct a as [| [|] | m | s | |], b as [| [|] | n | t | |];
    cbn [key_eqb key_number];
    try reflexivity; try apply String.eqb_sym; try apply Z.eqb_sym.
Qed.

Lemma key_eqb_refl (a : json) : hashable a = true -> key_eqb a a = true.
Proof.
  destruct a as [| [|] | m | s | |]; cbn [key_eqb key_number hashable]; intro H;
    try reflexivity; try discriminate H.
  - apply Z.eqb_refl.
  - apply String.eqb_refl.
Qed.

Lemma key_eqb_trans (a b c : json) :
  key_eqb a b = true -> key_eqb b c = true -> key_eqb a c = true.
Proof.
  destruct a as [| [|] | m | s | |], b as [| [|] | n | t | |];
    cbn [key_eqb key_number]; intro Hab; try discriminate Hab;
    destruct c as [| [|] | p | u | |]; cbn [key_eqb key_number];
    intro Hbc; try discriminate Hbc;
    try reflexivity;
    repeat match goal with
      | H : (_ =? _)%Z = true |- _ => apply Z.eqb_eq in H
      | H : String.eqb _ _ = true |- _ => apply String.eqb_eq in H
      end;
    subst; try discriminate;
    try apply Z.eqb_refl; try apply String.eqb_refl.
Qed.

(** An id equal to [a] differs from whatever [a] differs from. *)
Lemma key_eqb_apart (k a b : json) :
  key_eqb k a = true -> key_eqb a b = false -> key_eqb k b = false.
Proof.
  intros Hka Hab. destruct (key_eqb k b) eqn:Hkb; [| reflexivity].
  rewrite key_eqb_sym in Hka.
  rewrite (key_eqb_trans a k b Hka Hkb) in Hab. discriminate Hab.
Qed.

Lemma existsb_same {A : Type} (f g : A -> bool) (l : list A) :
  (forall a, f a = g a) -> existsb f l = existsb g l.
Proof.
  intro H. induction l as [| a l IH]; simpl; [reflexivity |].
  now rewrite H, IH.
Qed.

Lemma filter_snoc {A : Type} (p : A -> bool) (l : list A) (x : A) :
  filter p (l ++ [x])%list = (filter p l ++ (if p x then [x] else []))%list.
Proof. rewrite filter_app. reflexivity. Qed.

Lemma first_seen_snoc (ids : list json) (k : json) :
  first_seen (ids ++ [k])%list
  = if existsb (fun k' => key_eqb k' k) ids
    then first_seen ids
    else (first_seen ids ++ [k])%list.
Proof.
  induction ids as [| a ids IH]; simpl.
  - reflexivity.
  - rewrite IH. destruct (key_eqb a k) eqn:Hak; simpl.
    + destruct (existsb (fun k' => key_eqb k' k) ids); [reflexivity |].
      rewrite filter_snoc, Hak. simpl. now rewrite app_nil_r.
    + destruct (existsb (fun k' => key_eqb k' k) ids); [reflexivity |].
      rewrite filter_snoc, Hak. reflexivity.
Qed.

(** Looking an id up among the first-seen ids is looking it up among all. *)
Lemma existsb_first_seen (k : json) (ids : list json) :
  existsb (key_eqb k) (first_seen ids) = existsb (key_eqb k) ids.
Proof.
  induction ids as [| a ids IH]; simpl.
  - reflexivity.
  - destruct (key_eqb k a) eqn:Hka; simpl; [reflexivity |].
    rewrite <- IH. clear IH.
    induction (first_seen ids) as [| b rest IHrest]; simpl.
    + reflexivity.
    + destruct (key_eqb a b) eqn:Hab; simpl.
      * rewrite IHrest.
        rewrite (key_eqb_sym k b), (key_eqb_apart b a k); [reflexivity | |].
        -- now rewrite key_eqb_sym.
        -- now rewrite key_eqb_sym.
      * rewrite IHrest. reflexivity.
Qed.

Lemma apart_filter (p : json -> bool) (ids : list json) :
  apart ids -> apart (filter p ids).
Proof.
  induction 1 as [| a ids Ha _ IH]; simpl.
  - constructor.
  - destruct (p a); [| exact IH].
    constructor; [| exact IH].
    rewrite Forall_forall in *. intros b Hb.
    apply filter_In in Hb. apply Ha, Hb.
Qed.

Lemma first_seen_apart (ids : list json) : apart (first_seen ids).
Proof.
  induction ids as [| a ids IH]; simpl.
  - constructor.
  - constructor.
    + rewrite Forall_forall. intros b Hb. apply filter_In in Hb.
      destruct Hb as [_ Hb]. now apply negb_true_iff in Hb.
    + now apply apart_filter.
Qed.

(** Appending to the group of [k], when the keys are apart, extends
    exactly the groups whose key equals [k]. *)
Lemma append_to_groups (k x : json) (members : json -> list json)
    (keys : list json) :
  apart keys ->
  append_to k x (map (fun k' => (k', members k')) keys)
  = map (fun k' =>
           (k', (members k' ++ (if key_eqb k' k then [x] else []))%list))
        keys.
Proof.
  induction 1 as [| a keys Ha _ IH]; simpl.
  - reflexivity.
  - rewrite (key_eqb_sym a k). destruct (key_eqb k a) eqn:Hka.
    + f_equal. apply map_ext_in. intros b Hb.
      rewrite Forall_forall in Ha.
      rewrite (key_eqb_sym b k), (key_eqb_apart k a b Hka (Ha b Hb)).
      now rewrite app_nil_r.
    + rewrite app_nil_r. f_equal. exact IH.
Qed.

Lemma append_to_skip (k x : json) (d tail : groups) :
  has_key k d = false ->
  append_to k x (d ++ tail)%list = (d ++ append_to k x tail)%list.
Proof.
  induction d as [| [k' teams] d IH]; simpl; intro H.
  - reflexivity.
  - apply orb_false_iff in H. destruct H as [Hk Hd].
    rewrite Hk. now rewrite IH.
Qed.

Lemma has_key_grouped (k : json) (entries : list json) :
  has_key k (grouped entries) = existsb (key_eqb k) (map matchup_id entries).
Proof.
  unfold has_key, grouped. rewrite <- existsb_first_seen.
  induction (first_seen (map matchup_id entries)) as [| a l IH]; simpl.
  - reflexivity.
  - now rewrite IH.
Qed.

Lemma filter_none (k : json) (entries : list json) :
  existsb (key_eqb k) (map matchup_id entries) = false ->
  filter (fun e => key_eqb k (matchup_id e)) entries = [].
Proof.
  induction entries as [| e entries IH]; simpl; intro H.
  - reflexivity.
  - apply orb_false_iff in H. destruct H as [-> H]. now apply IH.
Qed.

(** One more entry: what the loop body does to the groups of the entries
    before it is the grouping of them all. *)
Lemma grouped_snoc (entries : list json) (x : json) :
  hashable (matchup_id x) = true ->
  grouped (entries ++ [x])%list
  = append_to (matchup_id x) x
      (if has_key (matchup_id x) (grouped entries)
       then grouped entries
       else (grouped entries ++ [(matchup_id x, [])])%list).
Proof.
  intro Hhash. set (k := matchup_id x).
  rewrite has_key_grouped.
  unfold grouped at 1. rewrite map_app. simpl map. fold k.
  rewrite first_seen_snoc.
  assert (existsb (fun k' => key_eqb k' k) (map matchup_id entries)
          = existsb (key_eqb k) (map matchup_id entries)) as ->.
  { apply existsb_same. intro a. apply key_eqb_sym. }
  destruct (existsb (key_eqb k) (map matchup_id entries)) eqn:Hseen.
  - unfold grouped.
    rewrite (append_to_groups k x
               (fun k' => filter (fun e => key_eqb k' (matchup_id e)) entries)
               _ (first_seen_apart _)).
    apply map_ext. intro a. rewrite filter_snoc. reflexivity.
  - rewrite append_to_skip by (now rewrite has_key_grouped).
    simpl. rewrite (key_eqb_refl k Hhash). rewrite map_app. simpl.
    f_equal.
    + unfold grouped. apply map_ext_in. intros a Ha.
      rewrite filter_snoc. fold k.
      assert (key_eqb a k = false) as ->; [| now rewrite app_nil_r].
      destruct (key_eqb a k) eqn:Hak; [| reflexivity].
      assert (existsb (key_eqb k) (first_seen (map matchup_id entries)) = true)
        as Hin.
      { apply existsb_exists. exists a. split; [exact Ha |].
        now rewrite key_eqb_sym. }
      rewrite existsb_first_seen, Hseen in Hin. discriminate Hin.
    + rewrite filter_snoc. fold k. rewrite (key_eqb_refl k Hhash).
      now rewrite (filter_none k entries Hseen).
Qed.

Lemma group_loop_snoc {RT : PyRuntime} (d : groups) (entries : list json) (x : json) :
  group_loop d (entries ++ [x])%list
  = (d' <- group_loop d entries ;; group_step d' x).
Proof.
  revert d. induction entries as [| e entries IH]; intro d; simpl.
  - destruct (group_step d x); reflexivity.
  - destruct (group_step d e) as [d' |]; simpl; [apply IH | reflexivity].
Qed.

Lemma group_step_groupable {RT : PyRuntime} (d : groups) (x : json) :
  groupable x ->
  group_step d x
  = Ok (append_to (matchup_id x) x
          (if has_key (matchup_id x) d then d
           else (d ++ [(matchup_id x, [])])%list)).
Proof.
  intros [[fields ->] Hhash]. unfold group_step, py_get. cbn [bind].
  unfold matchup_id in *. rewrite Hhash. reflexivity.
Qed.

Lemma group_matchups_grouped {RT : PyRuntime} (entries : list json) :
  Forall groupable entries ->
  group_matchups entries = Ok (grouped entries).
Proof.
  unfold group_matchups.
  induction entries as [| x entries IH] using rev_ind; intro H.
  - reflexivity.
  - apply Forall_app in H. destruct H as [Hentries Hx].
    inversion Hx as [| ? ? Hgroupable _]; subst.
    rewrite group_loop_snoc, (IH Hentries). cbn [bind].
    rewrite (group_step_groupable _ x Hgroupable).
    now rewrite grouped_snoc by apply Hgroupable.
Qed.

Lemma names_in_names (names : list string) :
  names_in (JArr (map JStr names)) = names.
Proof.
  unfold names_in. induction names as [| name rest IH]; simpl; [reflexivity |].
  now rewrite IH.
Qed.

(** A team of the expected shape renders as [team_text]. *)
Lemma render_team_text {RT : PyRuntime} (team : json) :
  matchup_shaped team -> render_team team = Ok (team_text team).
Proof.
  intros (fields & -> & _ & Hstarters).
  assert (starters_shown (JObj fields) = Ok (first_five (starters_of fields)))
    as Hshown.
  { unfold starters_of. destruct Hstarters as [Habsent | [names Hnames]].
    - rewrite Habsent. unfold starters_shown, py_get. rewrite Habsent. reflexivity.
    - rewrite Hnames, names_in_names. now apply starters_shown_names. }
  unfold render_team, team_text. rewrite Hshown.
  unfold field, py_get, points_text, shown, NA. cbn [bind].
  destruct (lookup "custom_points" fields) as [[| | | | |] |];
    destruct (lookup "points" fields); destruct (lookup "roster_id" fields);
    reflexivity.
Qed.

Lemma render_group_text {RT : PyRuntime} (g : json * list json) :
  Forall matchup_shaped (snd g) -> render_group g = Ok (group_text g).
Proof.
  intro H. unfold render_group, group_text.
  rewrite (for_each_rendered render_team 0 _ (map team_text (snd g))).
  - reflexivity.
  - apply rendered_as. apply Forall_forall. intros team Hteam.
    rewrite Forall_forall in H. apply render_team_text, H, Hteam.
Qed.

(** Every member of a group is one of the entries. *)
Lemma grouped_members_among (P : json -> Prop) (entries : list json) :
  Forall P entries -> Forall (fun g => Forall P (snd g)) (grouped entries).
Proof.
  intro H. unfold grouped. apply Forall_map. apply Forall_forall.
  intros k _. cbn [snd]. apply Forall_forall. intros e He.
  apply filter_In in He. rewrite Forall_forall in H. apply H, He.
Qed.

Lemma matchup_shaped_groupable (entry : json) :
  matchup_shaped entry -> groupable entry.
Proof.
  intros (fields & -> & Hhash & _). split; [now exists fields | exact Hhash].
Qed.

(** C3.  The matchups report groups the entries by [matchup_id]: it has
    one group per distinct id, the groups come in the order in which
    their ids first appear in the answer, and every group lists its
    entries in their original order, each as its team lines.  The loop
    of the tool builds exactly these groups, and the text the tool
    returns is the title followed by the groups in that order. *)
Theorem matchups_grouped_in_first_seen_order {RT : PyRuntime}
    (LEAGUE_ID league_id week : string) (w : world) (entries : list json) :
  resolve_league LEAGUE_ID league_id <> EmptyString ->
  strip week <> EmptyString ->
  remote w (BASE_URL ++ "/league/" ++ resolve_league LEAGUE_ID league_id
            ++ "/matchups/" ++ week)
  = Body (JArr entries) ->
  entries <> [] ->
  Forall matchup_shaped entries ->
  group_matchups entries = Ok (grouped entries)
  /\ fst (get_league_matchups LEAGUE_ID league_id week w)
     = "🏈 Week " ++ week ++ " Matchups:" ++ nl ++ nl
       ++ concat_all (map group_text (grouped entries)).
Proof.
  intros Hlid Hweek Hanswer Hnonempty Hshaped.
  assert (group_matchups entries = Ok (grouped entries)) as Hgroups.
  { apply group_matchups_grouped. apply Forall_forall. intros e He.
    rewrite Forall_forall in Hshaped. apply matchup_shaped_groupable, Hshaped, He. }
  split; [exact Hgroups |].
  unfold get_league_matchups, with_league.
  apply is_empty_false_iff in Hlid. apply is_empty_false_iff in Hweek.
  rewrite Hlid, Hweek.
  rewrite (try_request_body _ _ w _ Hanswer).
  assert (truthy (JArr entries) = true) as ->
    by (destruct entries; [congruence | reflexivity]).
  cbn [negb]. unfold format_matchups. cbn [py_iter bind].
  rewrite Hgroups. cbn [bind].
  rewrite (for_each_rendered render_group 0 (grouped entries)
             (map group_text (grouped entries))).
  - reflexivity.
  - apply rendered_as.
    pose proof (grouped_members_among matchup_shaped _ Hshaped) as Hin.
    apply Forall_forall. intros g Hg. rewrite Forall_forall in Hin.
    apply render_group_text, Hin, Hg.
Qed.

Lemma matchups_grouped_in_first_seen_order_witness :
  group_matchups [entry 2 7; entry 1 3; entry 2 5; entry 1 8]
  = Ok [(JInt 2%Z, [entry 2 7; entry 2 5]); (JInt 1%Z, [entry 1 3; entry 1 8])]
  /\ fst (get_league_matchups EmptyString "1048" "3"
            (answering (JArr [entry 2 7; entry 1 3; entry 2 5; entry 1 8])))
     = "🏈 Week 3 Matchups:" ++ nl ++ nl
       ++ "⚔️ Matchup 2:" ++ nl
       ++ "  Roster 7: 0 pts" ++ nl ++ "    Starters: " ++ nl
       ++ "  Roster 5: 0 pts" ++ nl ++ "    Starters: " ++ nl
       ++ nl
       ++ "⚔️ Matchup 1:" ++ nl
       ++ "  Roster 3: 0 pts" ++ nl ++ "    Starters: " ++ nl
       ++ "  Roster 8: 0 pts" ++ nl ++ "    Starters: " ++ nl
       ++ nl.
Proof.
  destruct (matchups_grouped_in_first_seen_order EmptyString "1048" "3"
              (answering (JArr [entry 2 7; entry 1 3; entry 2 5; entry 1 8]))
              [entry 2 7; entry 1 3; entry 2 5; entry 1 8])
    as [Hgroups Hout].
  - discriminate.
  - discriminate.
  - reflexivity.
  - discriminate.
  - repeat constructor;
      (eexists; split; [reflexivity | split; [reflexivity | left; reflexivity]]).
  - split; [exact Hgroups |]. rewrite Hout. reflexivity.
Defined.

(** The same answer as the tool reports it. *)
Example matchups_report :
  fst (get_league_matchups EmptyString "1048" "3"
         (answering (JArr [entry 2 7; entry 1 3; entry 2 5; entry 1 8])))
  = "🏈 Week 3 Matchups:" ++ nl ++ nl
    ++ "⚔️ Matchup 2:" ++ nl
    ++ "  Roster 7: 0 pts" ++ nl ++ "    Starters: " ++ nl
    ++ "  Roster 5: 0 pts" ++ nl ++ "    Starters: " ++ nl
    ++ nl
    ++ "⚔️ Matchup 1:" ++ nl
    ++ "  Roster 3: 0 pts" ++ nl ++ "    Starters: " ++ nl
    ++ "  Roster 8: 0 pts" ++ nl ++ "    Starters: " ++ nl
    ++ nl.
Proof. reflexivity. Qed.

(** ** Identifiers in the request path *)

Lemma same_prefix (prefix a b : string) : prefix ++ a = prefix ++ b -> a = b.
Proof.
  induction prefix as [| c prefix IH]; simpl; intro H; [exact H |].
  injection H as H. exact (IH H).
Qed.

(** C2.  What the code does with an identifier that is not blank after
    trimming.  The league tools put the trimmed text into the path.  The
    tools that take a username, a user id or a draft id, and the week of
    the two weekly tools, test the trimmed text and then build the path
    from the argument as it was passed; so for an argument with white
    space around it the identifier in the request is not the trimmed
    argument. *)
Theorem identifier_is_checked_trimmed_but_sent_raw {RT : PyRuntime}
    (LEAGUE_ID id : string) (w : world) :
  strip id <> EmptyString ->
  requests (snd (get_league LEAGUE_ID id w))
  = after_request w (BASE_URL ++ "/league/" ++ strip id)
  /\ requests (snd (get_user id w))
     = after_request w (BASE_URL ++ "/user/" ++ id)
  /\ requests (snd (get_draft id w))
     = after_request w (BASE_URL ++ "/draft/" ++ id)
  /\ requests (snd (get_draft_picks id w))
     = after_request w (BASE_URL ++ "/draft/" ++ id ++ "/picks")
  /\ requests (snd (get_draft_traded_picks id w))
     = after_request w (BASE_URL ++ "/draft/" ++ id ++ "/traded_picks")
  /\ (forall sport season : string,
        requests (snd (get_user_leagues id sport season w))
        = after_request w
            (BASE_URL ++ "/user/" ++ id ++ "/leagues/" ++ sport ++ "/" ++ season)
        /\ requests (snd (get_user_drafts id sport season w))
           = after_request w
               (BASE_URL ++ "/user/" ++ id ++ "/drafts/" ++ sport ++ "/" ++ season))
  /\ (forall league_id : string,
        resolve_league LEAGUE_ID league_id <> EmptyString ->
        requests (snd (get_league_matchups LEAGUE_ID league_id id w))
        = after_request w
            (BASE_URL ++ "/league/" ++ resolve_league LEAGUE_ID league_id
             ++ "/matchups/" ++ id)
        /\ requests (snd (get_league_transactions LEAGUE_ID league_id id w))
           = after_request w
               (BASE_URL ++ "/league/" ++ resolve_league LEAGUE_ID league_id
                ++ "/transactions/" ++ id))
  /\ (strip id <> id ->
      BASE_URL ++ "/user/" ++ id <> BASE_URL ++ "/user/" ++ strip id).
Proof.
  intro Hid. pose proof Hid as Hcheck. apply is_empty_false_iff in Hcheck.
  unfold get_league, get_user, get_draft, get_draft_picks,
    get_draft_traded_picks, get_user_leagues, get_user_drafts,
    get_league_matchups, get_league_transactions, with_league, after_request.
  rewrite Hcheck.
  repeat split.
  - unfold resolve_league. rewrite Hcheck, Hcheck. reflexivity.
  - apply is_empty_false_iff in H. rewrite H. reflexivity.
  - apply is_empty_false_iff in H. rewrite H. reflexivity.
  - intros Hpadded Hsame. apply Hpadded. symmetry.
    apply (same_prefix BASE_URL) in Hsame.
    exact (same_prefix "/user/" _ _ Hsame).
Qed.

Lemma identifier_is_checked_trimmed_but_sent_raw_witness :
  strip " bob " = "bob"
  /\ requests (snd (get_user " bob " (answering JNull)))
     = ["https://api.sleeper.app/v1/user/ bob "]
  /\ requests (snd (get_league EmptyString " bob " (answering JNull)))
     = ["https://api.sleeper.app/v1/league/bob"]
  /\ "https://api.sleeper.app/v1/user/ bob " <> "https://api.sleeper.app/v1/user/bob".
Proof.
  assert (strip " bob " <> EmptyString) as Hne by discriminate.
  destruct (identifier_is_checked_trimmed_but_sent_raw EmptyString " bob "
              (answering JNull) Hne)
    as (Hleague & Huser & _ & _ & _ & _ & _ & Hdiffer).
  split; [reflexivity | split; [exact Huser | split; [exact Hleague |]]].
  apply Hdiffer. discriminate.
Defined.

(** The claim as it is worded, that the path carries the trimmed
    username, does not hold of the code. *)
Lemma untrimmed_username_in_path :
  ~ (forall (username : string) (w : world),
       strip username <> EmptyString ->
       requests (snd (get_user username w))
       = after_request w (BASE_URL ++ "/user/" ++ strip username)).
Proof.
  intro H. specialize (H " bob " (answering JNull)).
  assert (strip " bob " <> EmptyString) as Hne by discriminate.
  specialize (H Hne). discriminate H.
Qed.

Example untrimmed_username_request :
  strip " bob " = "bob"
  /\ get_user " bob " (answering JNull)
     = ("✅ User Found:" ++ nl ++ "No user data",
        {| remote := remote (answering JNull);
           requests := ["https://api.sleeper.app/v1/user/ bob "] |}).
Proof. split; reflexivity. Qed.

From Stdlib Require Import Permutation.

(** * Further properties of the code *)

(** ** One request at most, to the fixed address *)

(** What a tool does is settled by its arguments before it looks at the
    world: it answers at once, or it runs one [try] block on a URL under
    [BASE_URL]. *)
Lemma invoke_plan {RT : PyRuntime} (LEAGUE_ID : string) (call : tool_call) :
  (exists text, forall w, invoke LEAGUE_ID call w = (text, w))
  \/ (exists path body,
        forall w, invoke LEAGUE_ID call w = try_request (BASE_URL ++ path) body w).
Proof.
  destruct call; cbn [invoke];
    unfold get_user, get_user_leagues, get_league, get_league_rosters,
      get_league_users, get_league_matchups, get_winners_bracket,
      get_losers_bracket, get_league_transactions, get_traded_picks,
      get_nfl_state, get_user_drafts, get_league_drafts, get_draft,
      get_draft_picks, get_draft_traded_picks, get_trending_players,
      search_player_info, with_league, trending_url;
    repeat match goal with
      | |- context [if is_empty ?s then _ else _] => destruct (is_empty s)
      | |- context [if negb ?b then _ else _] => destruct b; cbn [negb]
      | |- context [match number_or ?d ?s with _ => _ end] => destruct (number_or d s)
      end;
    solve [ right; do 2 eexists; intro; reflexivity
          | left; eexists; intro; reflexivity ].
Qed.

(** X1.  A tool call leaves the remote as it is and issues no request or
    exactly one, and that one goes to a URL under [BASE_URL]. *)
Theorem one_request_under_base_url {RT : PyRuntime}
    (LEAGUE_ID : string) (call : tool_call) (w : world) :
  remote (snd (invoke LEAGUE_ID call w)) = remote w
  /\ (requests (snd (invoke LEAGUE_ID call w)) = requests w
      \/ exists path,
           requests (snd (invoke LEAGUE_ID call w))
           = after_request w (BASE_URL ++ path)).
Proof.
  destruct (invoke_plan LEAGUE_ID call) as [[text H] | (path & body & H)];
    rewrite H.
  - split; [reflexivity | left; reflexivity].
  - split; [reflexivity | right; exists path; reflexivity].
Qed.

(** X2.  When the request of a tool fails before an answer arrives
    (connection, timeout, a body that is not JSON), the tool returns the
    failure marker followed by [Request failed:] and the message of the
    exception. *)
Theorem transport_failure_is_reported {RT : PyRuntime}
    (LEAGUE_ID : string) (call : tool_call) (w : world)
    (url msg : string) :
  requests (snd (invoke LEAGUE_ID call w)) = after_request w url ->
  remote w url = Broken msg ->
  fst (invoke LEAGUE_ID call w) = "❌ Error: Request failed: " ++ msg.
Proof.
  intros Hlog Hanswer.
  destruct (invoke_plan LEAGUE_ID call) as [[text H] | (path & body & H)];
    rewrite H in Hlog |- *.
  - simpl in Hlog. exfalso. exact (not_self_extended _ _ Hlog).
  - rewrite try_request_log in Hlog. unfold after_request in Hlog.
    apply app_inv_head in Hlog.
    assert (url = BASE_URL ++ path) as -> by (injection Hlog as <-; reflexivity).
    unfold try_request, fetch_json. rewrite Hanswer. reflexivity.
Qed.

Lemma transport_failure_is_reported_witness :
  fst (invoke EmptyString GetNflState (unreachable "timed out"))
  = "❌ Error: Request failed: timed out".
Proof.
  apply (transport_failure_is_reported EmptyString GetNflState
           (unreachable "timed out")
           "https://api.sleeper.app/v1/state/nfl" "timed out");
    reflexivity.
Defined.

(** ** Missing arguments *)

(** X3.  The tools that take a username, a user id, a draft id or a
    player id refuse an argument that is blank after trimming, each with
    its own text, and issue no request. *)
Theorem blank_identifier_is_refused {RT : PyRuntime}
    (id : string) (w : world) :
  strip id = EmptyString ->
  get_user id w = ("❌ Error: Username or user ID is required", w)
  /\ (forall sport season,
        get_user_leagues id sport season w = ("❌ Error: User ID is required", w)
        /\ get_user_drafts id sport season w = ("❌ Error: User ID is required", w))
  /\ get_draft id w = ("❌ Error: Draft ID is required", w)
  /\ get_draft_picks id w = ("❌ Error: Draft ID is required", w)
  /\ get_draft_traded_picks id w = ("❌ Error: Draft ID is required", w)
  /\ search_player_info id w = ("❌ Error: Player ID is required", w).
Proof.
  intro H.
  unfold get_user, get_user_leagues, get_user_drafts, get_draft,
    get_draft_picks, get_draft_traded_picks, search_player_info.
  rewrite H. cbn [is_empty]. repeat split.
Qed.

Lemma blank_identifier_is_refused_witness :
  get_draft_picks "   " (answering JNull)
  = ("❌ Error: Draft ID is required", answering JNull).
Proof.
  destruct (blank_identifier_is_refused "   " (answering JNull) eq_refl)
    as (_ & _ & _ & Hpicks & _).
  exact Hpicks.
Defined.

(** X4.  The two tools that take a week refuse a week that is blank after
    trimming without issuing a request, once the league is resolved; a
    missing league is reported first. *)
Theorem blank_week_is_refused {RT : PyRuntime}
    (LEAGUE_ID league_id week : string) (w : world) :
  strip week = EmptyString ->
  (resolve_league LEAGUE_ID league_id <> EmptyString ->
   get_league_matchups LEAGUE_ID league_id week w
   = ("❌ Error: Week number is required", w)
   /\ get_league_transactions LEAGUE_ID league_id week w
      = ("❌ Error: Week number is required", w))
  /\ (resolve_league LEAGUE_ID league_id = EmptyString ->
      get_league_matchups LEAGUE_ID league_id week w = (league_required, w)
      /\ get_league_transactions LEAGUE_ID league_id week w = (league_required, w)).
Proof.
  intro Hweek.
  unfold get_league_matchups, get_league_transactions, with_league.
  split; intro Hlid.
  - apply is_empty_false_iff in Hlid. rewrite Hlid, Hweek. split; reflexivity.
  - rewrite Hlid. split; reflexivity.
Qed.

Lemma blank_week_is_refused_witness :
  get_league_matchups "1048" EmptyString " " (answering JNull)
  = ("❌ Error: Week number is required", answering JNull)
  /\ get_league_transactions EmptyString " " " " (answering JNull)
     = (league_required, answering JNull).
Proof.
  split.
  - destruct (blank_week_is_refused "1048" EmptyString " " (answering JNull) eq_refl)
      as [Hweek _].
    destruct Hweek as [Hmatchups _]; [discriminate | exact Hmatchups].
  - destruct (blank_week_is_refused EmptyString " " " " (answering JNull) eq_refl)
      as [_ Hleague].
    destruct Hleague as [_ Htxn]; [reflexivity | exact Htxn].
Defined.

(** ** Trimming *)

Lemma drop_while_space_fixed (width : list N -> nat) (fuel : nat) (l : list N) :
  width l = 0 -> drop_while_space width fuel l = l.
Proof. intro H. destruct fuel; simpl; [reflexivity | now rewrite H]. Qed.

(** With fuel for every byte, dropping stops only where no white space
    is left at the head. *)
Lemma drop_while_space_done (width : list N -> nat) (fuel : nat) (l : list N) :
  width [] = 0 ->
  length l <= fuel ->
  width (drop_while_space width fuel l) = 0.
Proof.
  intro Hnil. revert l. induction fuel as [| fuel IH]; intros l Hlen.
  - destruct l; [exact Hnil | simpl in Hlen; lia].
  - simpl. destruct (width l) as [| k] eqn:Hw; [exact Hw |].
    apply IH. destruct l as [| b l]; [rewrite Hnil in Hw; discriminate |].
    simpl in *. pose proof (length_skipn k l). lia.
Qed.

Lemma drop_while_space_suffix (width : list N -> nat) (fuel : nat) (l : list N) :
  exists k, drop_while_space width fuel l = skipn k l.
Proof.
  revert l. induction fuel as [| fuel IH]; intro l; cbn [drop_while_space].
  - exists 0. reflexivity.
  - destruct (width l) as [| k] eqn:Hw.
    + exists 0. reflexivity.
    + destruct (IH (skipn (S k) l)) as [j Hj]. exists (S k + j).
      rewrite Hj, skipn_skipn. f_equal. lia.
Qed.

(** Cutting the end of a text does not bring white space to its head. *)
Lemma leading_space_prefix (n : nat) (l : list N) :
  leading_space l = 0 -> leading_space (firstn n l) = 0.
Proof.
  destruct l as [| b0 [| b1 [| b2 t]]];
    destruct n as [| [| [| n]]]; simpl; try reflexivity;
    destruct (ascii_space b0); try discriminate; try reflexivity;
    destruct (space2 b0 b1); try discriminate; try reflexivity;
    destruct (space3 b0 b1 b2); try discriminate; reflexivity.
Qed.

Lemma rstrip_bytes_prefix (l : list N) : exists n, rstrip_bytes l = firstn n l.
Proof.
  unfold rstrip_bytes.
  destruct (drop_while_space_suffix trailing_space (length (rev l)) (rev l))
    as [k Hk].
  rewrite length_rev in Hk. rewrite Hk.
  exists (length l - k). rewrite skipn_rev, rev_involutive. reflexivity.
Qed.

(** Trimmed bytes are a fixed point of trimming. *)
Lemma strip_bytes_fixed (l : list N) :
  let t := rstrip_bytes (lstrip_bytes l) in
  rstrip_bytes (lstrip_bytes t) = t.
Proof.
  intro t.
  assert (leading_space (lstrip_bytes l) = 0) as Hlead
    by (unfold lstrip_bytes; apply drop_while_space_done;
        [reflexivity | apply Nat.le_refl]).
  assert (leading_space t = 0) as Hlead'.
  { subst t. destruct (rstrip_bytes_prefix (lstrip_bytes l)) as [n ->].
    now apply leading_space_prefix. }
  assert (trailing_space (rev t) = 0) as Htrail.
  { subst t. unfold rstrip_bytes at 1. rewrite rev_involutive.
    apply drop_while_space_done;
      [reflexivity | rewrite length_rev; apply Nat.le_refl]. }
  unfold lstrip_bytes at 1. rewrite (drop_while_space_fixed _ _ _ Hlead').
  unfold rstrip_bytes at 1. rewrite (drop_while_space_fixed _ _ _ Htrail).
  apply rev_involutive.
Qed.

Lemma bytes_of_text_of (l : list N) :
  Forall (fun b => (b < 256)%N) l -> bytes_of (text_of l) = l.
Proof.
  unfold bytes_of, text_of. rewrite list_ascii_of_string_of_list_ascii.
  induction 1 as [| b l Hb _ IH]; simpl; [reflexivity |].
  rewrite IH. f_equal. now apply N_ascii_embedding.
Qed.

Lemma bytes_of_bounded (s : string) : Forall (fun b => (b < 256)%N) (bytes_of s).
Proof.
  unfold bytes_of. apply Forall_map. apply Forall_forall.
  intros a _. apply N_ascii_bounded.
Qed.

Lemma Forall_firstn_of {A : Type} (P : A -> Prop) (n : nat) (l : list A) :
  Forall P l -> Forall P (firstn n l).
Proof.
  intro H. revert n. induction H as [| a l Ha _ IH]; intros [| n]; simpl;
    constructor; auto.
Qed.

Lemma Forall_skipn_of {A : Type} (P : A -> Prop) (n : nat) (l : list A) :
  Forall P l -> Forall P (skipn n l).
Proof.
  intro H. revert n. induction H as [| a l Ha Hl IH]; intros [| n]; simpl;
    auto.
Qed.

Lemma strip_bytes_bounded (l : list N) :
  Forall (fun b => (b < 256)%N) l ->
  Forall (fun b => (b < 256)%N) (rstrip_bytes (lstrip_bytes l)).
Proof.
  intro H.
  destruct (rstrip_bytes_prefix (lstrip_bytes l)) as [n ->].
  unfold lstrip_bytes.
  destruct (drop_while_space_suffix leading_space (length l) l) as [k ->].
  now apply Forall_firstn_of, Forall_skipn_of.
Qed.

(** [s.strip().strip() == s.strip()]. *)
Lemma strip_idempotent (s : string) : strip (strip s) = strip s.
Proof.
  unfold strip at 1 2.
  rewrite bytes_of_text_of
    by (apply strip_bytes_bounded, bytes_of_bounded).
  pose proof (strip_bytes_fixed (bytes_of s)) as H. cbv zeta in H.
  rewrite H. reflexivity.
Qed.

(** ** The league identifier and its default *)

(** A league tool sees its [league_id] and the default only through
    [resolve_league]. *)
Lemma invoke_by_resolution {RT : PyRuntime}
    (D1 D2 : string) (call : tool_call) (a b : string) (w : world) :
  league_argument call = Some a ->
  resolve_league D1 a = resolve_league D2 b ->
  invoke D1 call w = invoke D2 (with_league_argument call b) w.
Proof.
  intros Harg Hsame.
  destruct call; simpl in Harg; try discriminate Harg;
    injection Harg as ->; cbn [invoke with_league_argument];
    unfold get_league, get_league_rosters, get_league_users,
      get_league_matchups, get_winners_bracket, get_losers_bracket,
      get_league_transactions, get_traded_picks, get_league_drafts,
      with_league;
    rewrite Hsame; reflexivity.
Qed.

Lemma resolve_league_blank (D league_id : string) :
  strip league_id = EmptyString -> resolve_league D league_id = strip D.
Proof. intro H. unfold resolve_league. now rewrite H. Qed.

Lemma resolve_league_explicit (D league_id : string) :
  strip league_id <> EmptyString -> resolve_league D league_id = strip league_id.
Proof.
  intro H. unfold resolve_league. apply is_empty_false_iff in H. now rewrite H.
Qed.

Lemma resolve_league_default (D : string) : resolve_league D D = strip D.
Proof. unfold resolve_league. now destruct (is_empty (strip D)). Qed.

(** X5.  A league tool called with a [league_id] that is blank after
    trimming does exactly what it does when the default is passed as the
    argument: same text, same request. *)
Theorem blank_league_uses_default {RT : PyRuntime}
    (LEAGUE_ID : string) (call : tool_call) (league_id : string) (w : world) :
  league_argument call = Some league_id ->
  strip league_id = EmptyString ->
  invoke LEAGUE_ID call w
  = invoke LEAGUE_ID (with_league_argument call LEAGUE_ID) w.
Proof.
  intros Harg Hblank. apply (invoke_by_resolution _ _ _ league_id); [exact Harg |].
  now rewrite resolve_league_blank, resolve_league_default.
Qed.

Lemma blank_league_uses_default_witness :
  invoke " 1048" (GetLeagueRosters "  ") (answering (JArr []))
  = ("📭 No rosters found for league 1048",
     {| remote := remote (answering (JArr []));
        requests := ["https://api.sleeper.app/v1/league/1048/rosters"] |}).
Proof.
  rewrite (blank_league_uses_default " 1048" (GetLeagueRosters "  ") "  "
             (answering (JArr [])) eq_refl eq_refl).
  reflexivity.
Defined.

(** X6.  When the [league_id] argument is not blank, the default plays no
    part: the tool does the same whatever the default is. *)
Theorem explicit_league_ignores_default {RT : PyRuntime}
    (D1 D2 : string) (call : tool_call) (league_id : string) (w : world) :
  league_argument call = Some league_id ->
  strip league_id <> EmptyString ->
  invoke D1 call w = invoke D2 call w.
Proof.
  intros Harg Hexplicit.
  rewrite (invoke_by_resolution D1 D2 call league_id league_id w Harg).
  - destruct call; simpl in Harg; try discriminate Harg;
      injection Harg as ->; reflexivity.
  - now rewrite !resolve_league_explicit.
Qed.

Lemma explicit_league_ignores_default_witness :
  invoke "777" (GetTradedPicks "1048") (answering JNull)
  = invoke EmptyString (GetTradedPicks "1048") (answering JNull).
Proof.
  apply (explicit_league_ignores_default "777" EmptyString
           (GetTradedPicks "1048") "1048" (answering JNull));
    [reflexivity | discriminate].
Defined.

(** X7.  White space around a [league_id] is of no account: the tool does
    the same for the argument and for the trimmed argument, and the
    identifier it resolves is itself trimmed. *)
Theorem league_padding_is_ignored {RT : PyRuntime}
    (LEAGUE_ID : string) (call : tool_call) (league_id : string) (w : world) :
  league_argument call = Some league_id ->
  invoke LEAGUE_ID call w
  = invoke LEAGUE_ID (with_league_argument call (strip league_id)) w
  /\ strip (resolve_league LEAGUE_ID league_id)
     = resolve_league LEAGUE_ID league_id.
Proof.
  intro Harg. split.
  - apply (invoke_by_resolution _ _ _ league_id); [exact Harg |].
    unfold resolve_league. now rewrite strip_idempotent.
  - unfold resolve_league.
    destruct (is_empty (strip league_id)); apply strip_idempotent.
Qed.

Lemma league_padding_is_ignored_witness :
  invoke EmptyString (GetLeagueUsers "  1048 ") (unreachable "no route")
  = invoke EmptyString (GetLeagueUsers "1048") (unreachable "no route").
Proof.
  apply (league_padding_is_ignored EmptyString (GetLeagueUsers "  1048 ")
           "  1048 " (unreachable "no route")).
  reflexivity.
Defined.

(** ** Answers without data *)

(** X8.  The thirteen tools that expect a collection answer a false value
    (null, an empty list, an empty object, zero, an empty string) with
    their no-data text, which names the identifiers of the query: the
    resolved league id and the week, or the user id, sport and season, or
    the draft id, or the trend type. *)
Theorem empty_answer_is_no_data {RT : PyRuntime}
    (LEAGUE_ID : string) (w : world) (j : json) :
  (forall url, remote w url = Body j) ->
  truthy j = false ->
  (forall league_id lid : string,
     lid = resolve_league LEAGUE_ID league_id ->
     lid <> EmptyString ->
     fst (get_league_rosters LEAGUE_ID league_id w)
     = "📭 No rosters found for league " ++ lid
     /\ fst (get_league_users LEAGUE_ID league_id w)
        = "📭 No users found for league " ++ lid
     /\ fst (get_winners_bracket LEAGUE_ID league_id w)
        = "📭 No playoff bracket found for league " ++ lid
     /\ fst (get_losers_bracket LEAGUE_ID league_id w)
        = "📭 No losers bracket found for league " ++ lid
     /\ fst (get_traded_picks LEAGUE_ID league_id w)
        = "📭 No traded picks found for league " ++ lid
     /\ fst (get_league_drafts LEAGUE_ID league_id w)
        = "📭 No drafts found for league " ++ lid
     /\ forall week : string,
          strip week <> EmptyString ->
          fst (get_league_matchups LEAGUE_ID league_id week w)
          = "📭 No matchups found for league " ++ lid ++ ", week " ++ week
          /\ fst (get_league_transactions LEAGUE_ID league_id week w)
             = "📭 No transactions found for league " ++ lid ++ ", week " ++ week)
  /\ (forall id : string,
        strip id <> EmptyString ->
        fst (get_draft_picks id w) = "📭 No picks found for draft " ++ id
        /\ fst (get_draft_traded_picks id w)
           = "📭 No traded picks found for draft " ++ id
        /\ forall sport season : string,
             fst (get_user_leagues id sport season w)
             = "📭 No leagues found for user " ++ id ++ " in " ++ sport
               ++ " " ++ season
             /\ fst (get_user_drafts id sport season w)
                = "📭 No drafts found for user " ++ id ++ " in " ++ sport
                  ++ " " ++ season)
  /\ (forall (trend_type lookback_hours limit : string) (lookback lim : Z),
        trend_type = "add" \/ trend_type = "drop" ->
        number_or 24 lookback_hours = Some lookback ->
        number_or 25 limit = Some lim ->
        fst (get_trending_players trend_type lookback_hours limit w)
        = "📭 No trending " ++ trend_type ++ " players found").
Proof.
  intros Hanswer Hfalse.
  split; [| split].
  - intros league_id lid -> Hlid. apply is_empty_false_iff in Hlid.
    unfold get_league_rosters, get_league_users, get_winners_bracket,
      get_losers_bracket, get_traded_picks, get_league_drafts,
      get_league_matchups, get_league_transactions, with_league.
    rewrite Hlid.
    repeat split;
      try (intros; match goal with
                   | H : strip _ <> EmptyString |- _ =>
                       apply is_empty_false_iff in H; rewrite H
                   end);
      rewrite (try_request_body _ _ w j (Hanswer _)), Hfalse; reflexivity.
  - intros id Hid. apply is_empty_false_iff in Hid.
    unfold get_draft_picks, get_draft_traded_picks, get_user_leagues,
      get_user_drafts.
    rewrite Hid.
    repeat split;
      rewrite (try_request_body _ _ w j (Hanswer _)), Hfalse; reflexivity.
  - intros trend_type lookback_hours limit lookback lim Htype Hlookback Hlim.
    unfold get_trending_players. rewrite Hlookback, Hlim.
    destruct Htype as [-> | ->]; cbn [String.eqb Ascii.eqb Bool.eqb orb negb];
      rewrite (try_request_body _ _ w j (Hanswer _)), Hfalse; reflexivity.
Qed.

Lemma empty_answer_is_no_data_witness :
  fst (get_league_matchups "1048" "  " "7" (answering (JArr [])))
  = "📭 No matchups found for league 1048, week 7"
  /\ fst (get_user_drafts "u42" "nfl" "2024" (answering JNull))
     = "📭 No drafts found for user u42 in nfl 2024".
Proof.
  split.
  - destruct (empty_answer_is_no_data "1048" (answering (JArr [])) (JArr [])
                (fun _ => eq_refl) eq_refl) as (Hleague & _ & _).
    destruct (Hleague "  " "1048" eq_refl) as (_ & _ & _ & _ & _ & _ & Hweek);
      [discriminate |].
    destruct (Hweek "7") as [Hmatchups _]; [discriminate | exact Hmatchups].
  - destruct (empty_answer_is_no_data EmptyString (answering JNull) JNull
                (fun _ => eq_refl) eq_refl) as (_ & Hid & _).
    destruct (Hid "u42") as (_ & _ & Huser); [discriminate |].
    destruct (Huser "nfl" "2024") as [_ Hdrafts]. exact Hdrafts.
Defined.

(** X9.  [get_user] has no no-data text of its own: for a false answer,
    which is what the API gives for an unknown user (null), it reports
    the user as found, with [No user data] in place of the fields. *)
Theorem unknown_user_is_reported_found {RT : PyRuntime}
    (username : string) (w : world) (j : json) :
  strip username <> EmptyString ->
  remote w (BASE_URL ++ "/user/" ++ username) = Body j ->
  truthy j = false ->
  fst (get_user username w) = "✅ User Found:" ++ nl ++ "No user data".
Proof.
  intros Hname Hanswer Hfalse. unfold get_user.
  apply is_empty_false_iff in Hname. rewrite Hname.
  rewrite (try_request_body _ _ w j Hanswer).
  unfold format_user. rewrite Hfalse. reflexivity.
Qed.

Lemma unknown_user_is_reported_found_witness :
  fst (get_user "nobody" (answering JNull))
  = "✅ User Found:" ++ nl ++ "No user data".
Proof.
  apply (unknown_user_is_reported_found "nobody" (answering JNull) JNull);
    [discriminate | reflexivity | reflexivity].
Defined.

(** X10.  The tools that expect one object ([get_league], [get_nfl_state],
    [get_draft] and the directory lookup of [search_player_info]) have no
    guard for another kind of answer: for null, a list, a number or a
    string they return the report of the attribute error that [.get]
    raises, not a no-data text. *)
Theorem non_object_answer_is_an_error {RT : PyRuntime}
    (LEAGUE_ID : string) (w : world) (j : json) :
  (forall url, remote w url = Body j) ->
  (forall fields, j <> JObj fields) ->
  fst (get_nfl_state w) = "❌ Error: " ++ fault_text (NoAttribute j "get")
  /\ (forall league_id,
        resolve_league LEAGUE_ID league_id <> EmptyString ->
        fst (get_league LEAGUE_ID league_id w)
        = "❌ Error: " ++ fault_text (NoAttribute j "get"))
  /\ (forall id,
        strip id <> EmptyString ->
        fst (get_draft id w) = "❌ Error: " ++ fault_text (NoAttribute j "get")
        /\ fst (search_player_info id w)
           = "❌ Error: " ++ fault_text (NoAttribute j "get")).
Proof.
  intros Hanswer Hshape.
  assert (forall key default,
            py_get j key default = Err (Fault (NoAttribute j "get"))) as Hget.
  { intros key default. destruct j; try reflexivity.
    exfalso. exact (Hshape _ eq_refl). }
  split; [| split].
  - unfold get_nfl_state. rewrite (try_request_body _ _ w j (Hanswer _)).
    unfold field. rewrite Hget. reflexivity.
  - intros league_id Hlid. apply is_empty_false_iff in Hlid.
    unfold get_league, with_league. rewrite Hlid.
    rewrite (try_request_body _ _ w j (Hanswer _)).
    unfold format_league, field.
    destruct (negb (truthy j)); cbn [bind]; rewrite Hget; reflexivity.
  - intros id Hid. apply is_empty_false_iff in Hid.
    unfold get_draft, search_player_info. rewrite Hid.
    split; rewrite (try_request_body _ _ w j (Hanswer _)), Hget; reflexivity.
Qed.

Lemma non_object_answer_is_an_error_witness :
  fst (get_league EmptyString "1048" (answering JNull))
  = "❌ Error: 'NoneType' object has no attribute 'get'".
Proof.
  destruct (non_object_answer_is_an_error EmptyString (answering JNull) JNull
              (fun _ => eq_refl)) as (_ & Hleague & _).
  - discriminate.
  - apply (Hleague "1048"). discriminate.
Defined.

(** ** Fields of a report *)

(** X11.  The placeholder stands for an absent key only.  A key that is
    present with null prints as [None]: a user whose avatar is null gets
    the line [- Avatar: None], a user without the key [- Avatar: N/A]. *)
Theorem null_field_prints_None {RT : PyRuntime}
    (fields : list (string * json)) :
  fields <> [] ->
  (lookup "avatar" fields = Some JNull ->
   exists pre, format_user (JObj fields) = Ok (pre ++ nl ++ "- Avatar: None"))
  /\ (lookup "avatar" fields = None ->
      exists pre, format_user (JObj fields) = Ok (pre ++ nl ++ "- Avatar: N/A")).
Proof.
  intro Hne.
  assert (truthy (JObj fields) = true) as Htruthy
    by (destruct fields; [congruence | reflexivity]).
  unfold format_user. rewrite Htruthy. cbn [negb].
  unfold field, py_get. cbn [bind].
  split; intros ->; cbn [py_str NA]; ends_with.
Qed.

Lemma null_field_prints_None_witness :
  exists pre,
    format_user
      (JObj [("username", JStr "bob"); ("display_name", JStr "Bob");
             ("user_id", JStr "42"); ("avatar", JNull)])
    = Ok (pre ++ nl ++ "- Avatar: None").
Proof.
  apply (null_field_prints_None
           [("username", JStr "bob"); ("display_name", JStr "Bob");
            ("user_id", JStr "42"); ("avatar", JNull)]);
    [discriminate | reflexivity].
Defined.

(** X12.  In a matchup an override takes precedence over the score: when
    [custom_points] is present and not null, zero included, the team line
    shows it marked [(override)] whatever [points] is; when it is absent
    or null the line shows [points], and 0 when that is absent too. *)
Theorem override_points_take_precedence {RT : PyRuntime}
    (fields : list (string * json)) (starters : string) :
  starters_shown (JObj fields) = Ok starters ->
  let roster :=
    match lookup "roster_id" fields with Some r => py_str r | None => "N/A" end in
  (forall custom,
     lookup "custom_points" fields = Some custom ->
     custom <> JNull ->
     render_team (JObj fields)
     = Ok ("  Roster " ++ roster ++ ": " ++ py_str custom ++ " (override) pts" ++ nl
           ++ "    Starters: " ++ starters ++ nl))
  /\ (lookup "custom_points" fields = None
      \/ lookup "custom_points" fields = Some JNull ->
      render_team (JObj fields)
      = Ok ("  Roster " ++ roster ++ ": "
            ++ match lookup "points" fields with
               | Some p => py_str p
               | None => "0"
               end
            ++ " pts" ++ nl
            ++ "    Starters: " ++ starters ++ nl)).
Proof.
  intros Hstarters roster. subst roster.
  unfold render_team. rewrite Hstarters. unfold field, py_get. cbn [bind].
  destruct (lookup "roster_id" fields); split.
  1, 3: intros custom -> Hnot_null;
    destruct custom; try congruence;
    rewrite string_app_assoc; reflexivity.
  all: intros [-> | ->]; destruct (lookup "points" fields); reflexivity.
Qed.

Lemma override_points_take_precedence_witness :
  render_team
    (JObj [("roster_id", JInt 4); ("points", JInt 118); ("custom_points", JInt 0)])
  = Ok ("  Roster 4: 0 (override) pts" ++ nl ++ "    Starters: " ++ nl).
Proof.
  destruct (override_points_take_precedence
              [("roster_id", JInt 4); ("points", JInt 118);
               ("custom_points", JInt 0)]
              EmptyString eq_refl) as [Hoverride _].
  apply (Hoverride (JInt 0)); [reflexivity | discriminate].
Defined.

(** ** Invariants of the grouping loop *)

Lemma members_append_to (k x : json) (d : groups) :
  has_key k d = true ->
  Permutation (flat_map snd (append_to k x d)) (x :: flat_map snd d).
Proof.
  induction d as [| [k' teams] d IH]; simpl; intro H; [discriminate H |].
  destruct (key_eqb k k') eqn:Hk; simpl.
  - rewrite <- app_assoc. simpl. apply Permutation_sym, Permutation_middle.
  - simpl in H. rewrite (IH H). apply Permutation_sym, Permutation_middle.
Qed.

Lemma grouped_members (entries : list json) :
  Forall groupable entries ->
  Permutation (flat_map snd (grouped entries)) entries.
Proof.
  induction entries as [| x entries IH] using rev_ind; intro H.
  - constructor.
  - apply Forall_app in H. destruct H as [Hentries Hx].
    inversion Hx as [| ? ? [_ Hhash] _]; subst.
    rewrite (grouped_snoc entries x Hhash).
    destruct (has_key (matchup_id x) (grouped entries)) eqn:Hkey.
    + rewrite (members_append_to _ _ _ Hkey), (IH Hentries).
      apply Permutation_cons_append.
    + rewrite members_append_to.
      * rewrite flat_map_app. simpl. rewrite app_nil_r, (IH Hentries).
        apply Permutation_cons_append.
      * unfold has_key. rewrite existsb_app. simpl.
        rewrite (key_eqb_refl _ Hhash). now rewrite orb_true_r.
Qed.

Lemma first_seen_incl (k : json) (ids : list json) :
  In k (first_seen ids) -> In k ids.
Proof.
  induction ids as [| a ids IH]; simpl; [tauto |].
  intros [-> | H]; [now left |].
  right. apply IH. apply filter_In in H. tauto.
Qed.

Lemma grouped_groups (entries : list json) :
  Forall groupable entries ->
  Forall (fun g =>
            snd g <> []
            /\ Forall (fun e => key_eqb (fst g) (matchup_id e) = true) (snd g))
         (grouped entries).
Proof.
  intro H. unfold grouped. apply Forall_map. apply Forall_forall.
  intros k Hk. cbn [fst snd]. split.
  - apply first_seen_incl, in_map_iff in Hk. destruct Hk as (e & <- & He).
    rewrite Forall_forall in H. destruct (H e He) as [_ Hhash].
    intro Hempty.
    assert (In e (filter (fun e' => key_eqb (matchup_id e) (matchup_id e')) entries))
      as Hin by (apply filter_In; split; [exact He | now apply key_eqb_refl]).
    rewrite Hempty in Hin. exact Hin.
  - apply Forall_forall. intros e He. apply filter_In in He. tauto.
Qed.

(** X13.  The grouping loop loses nothing and invents nothing: the groups
    together hold exactly the entries of the answer, each once; no two
    groups have the same id; no group is empty; and every entry sits in
    the group of its own [matchup_id]. *)
Theorem grouping_keeps_every_entry {RT : PyRuntime} (entries : list json) :
  Forall groupable entries ->
  exists d,
    group_matchups entries = Ok d
    /\ Permutation (flat_map snd d) entries
    /\ apart (map fst d)
    /\ Forall (fun g =>
                 snd g <> []
                 /\ Forall (fun e => key_eqb (fst g) (matchup_id e) = true) (snd g))
              d.
Proof.
  intro H. exists (grouped entries).
  split; [exact (group_matchups_grouped entries H) | split; [| split]].
  - exact (grouped_members entries H).
  - unfold grouped. rewrite map_map. cbn [fst]. rewrite map_id.
    apply first_seen_apart.
  - exact (grouped_groups entries H).
Qed.

Lemma grouping_keeps_every_entry_witness :
  exists d,
    group_matchups [entry 3 1; entry 3 2; entry 9 4]
    = Ok d
    /\ Permutation (flat_map snd d) [entry 3 1; entry 3 2; entry 9 4].
Proof.
  destruct (grouping_keeps_every_entry [entry 3 1; entry 3 2; entry 9 4])
    as (d & Hd & Hperm & _).
  - repeat constructor; eexists; reflexivity.
  - exists d. split; assumption.
Defined.

(** ** A list report is all or nothing *)

Lemma for_each_stops {RT : PyRuntime} {A : Type}
    (body : nat -> A -> result string) (start : nat)
    (good : list A) (bad : A) (rest : list A) (e : exn) :
  Forall (fun x => forall i, exists text, body i x = Ok text) good ->
  (forall i, body i bad = Err e) ->
  for_each start body (good ++ bad :: rest)%list = Err e.
Proof.
  intros Hgood Hbad. revert start.
  induction Hgood as [| x good Hx _ IH]; intro start; simpl.
  - rewrite Hbad. reflexivity.
  - destruct (Hx start) as [text ->]. cbn [bind]. rewrite IH. reflexivity.
Qed.

(** X14.  One entry that is not an object spoils the whole rosters
    report: the rosters before it, which would render, are not shown, and
    the text is the report of the attribute error. *)
Theorem malformed_roster_fails_report {RT : PyRuntime}
    (LEAGUE_ID league_id : string) (w : world)
    (good : list json) (bad : json) (rest : list json) :
  resolve_league LEAGUE_ID league_id <> EmptyString ->
  remote w (BASE_URL ++ "/league/" ++ resolve_league LEAGUE_ID league_id
            ++ "/rosters")
  = Body (JArr (good ++ bad :: rest)%list) ->
  Forall (fun roster => forall i, exists text, format_roster roster i = Ok text)
         good ->
  (forall fields, bad <> JObj fields) ->
  fst (get_league_rosters LEAGUE_ID league_id w)
  = "❌ Error: " ++ fault_text (NoAttribute bad "get").
Proof.
  intros Hlid Hanswer Hgood Hbad.
  unfold get_league_rosters, with_league.
  apply is_empty_false_iff in Hlid. rewrite Hlid.
  rewrite (try_request_body _ _ w _ Hanswer).
  assert (truthy (JArr (good ++ bad :: rest)%list) = true) as ->
    by (destruct good; reflexivity).
  cbn [negb py_len py_iter bind].
  rewrite (for_each_stops _ 0 good bad rest (Fault (NoAttribute bad "get"))).
  - reflexivity.
  - apply Forall_forall. intros roster Hin i.
    rewrite Forall_forall in Hgood. destruct (Hgood roster Hin i) as [text ->].
    eexists. reflexivity.
  - intro i. unfold format_roster, py_get.
    destruct bad; try reflexivity. exfalso. exact (Hbad _ eq_refl).
Qed.

Lemma malformed_roster_fails_report_witness :
  fst (get_league_rosters EmptyString "1048"
         (answering (JArr [JObj [("roster_id", JInt 1)]; JStr "oops";
                           JObj [("roster_id", JInt 3)]])))
  = "❌ Error: 'str' object has no attribute 'get'".
Proof.
  rewrite (malformed_roster_fails_report EmptyString "1048"
             (answering (JArr [JObj [("roster_id", JInt 1)]; JStr "oops";
                               JObj [("roster_id", JInt 3)]]))
             [JObj [("roster_id", JInt 1)]] (JStr "oops")
             [JObj [("roster_id", JInt 3)]]).
  - reflexivity.
  - discriminate.
  - reflexivity.
  - repeat constructor. intro i. eexists. reflexivity.
  - discriminate.
Defined.

(** ** Numbers of the trending query *)

(** X15.  The trending query carries [lookback_hours] and [limit] as the
    integers they parse to, printed in decimal, not as the text that was
    passed: two calls whose texts parse to the same numbers (or are blank
    for the same default) do the same, and no range is imposed on the
    numbers. *)
Theorem trending_uses_parsed_numbers {RT : PyRuntime}
    (trend_type lookback_hours limit : string) (lookback lim : Z) (w : world) :
  trend_type = "add" \/ trend_type = "drop" ->
  number_or 24 lookback_hours = Some lookback ->
  number_or 25 limit = Some lim ->
  requests (snd (get_trending_players trend_type lookback_hours limit w))
  = after_request w
      (BASE_URL ++ "/players/nfl/trending/" ++ trend_type
       ++ "?lookback_hours=" ++ str_of_Z lookback ++ "&limit=" ++ str_of_Z lim)
  /\ forall lookback_hours' limit' : string,
       number_or 24 lookback_hours' = Some lookback ->
       number_or 25 limit' = Some lim ->
       get_trending_players trend_type lookback_hours' limit' w
       = get_trending_players trend_type lookback_hours limit w.
Proof.
  intros Htype Hlookback Hlim.
  unfold get_trending_players. rewrite Hlookback, Hlim.
  assert (negb (String.eqb trend_type "add" || String.eqb trend_type "drop")
          = false) as ->
    by (destruct Htype as [-> | ->]; reflexivity).
  split; [reflexivity |].
  intros lookback_hours' limit' -> ->. reflexivity.
Qed.

Lemma trending_uses_parsed_numbers_witness :
  requests (snd (get_trending_players "drop" " -048 " EmptyString
                   (answering JNull)))
  = ["https://api.sleeper.app/v1/players/nfl/trending/drop?lookback_hours=-48&limit=25"]
  /\ get_trending_players "drop" "-48" "25" (answering JNull)
     = get_trending_players "drop" " -048 " EmptyString (answering JNull).
Proof.
  destruct (trending_uses_parsed_numbers "drop" " -048 " EmptyString
              (-48) 25 (answering JNull)) as [Hurl Hsame];
    [right; reflexivity | reflexivity | reflexivity |].
  split; [exact Hurl |].
  apply Hsame; reflexivity.
Defined.

(** ** The two brackets *)

Lemma for_each_same {RT : PyRuntime} {A : Type}
    (f g : nat -> A -> result string) (start : nat) (items : list A) :
  Forall (fun x => forall i, f i x = g i x) items ->
  for_each start f items = for_each start g items.
Proof.
  intro H. revert start. induction H as [| x items Hx _ IH]; intro start; simpl.
  - reflexivity.
  - now rewrite Hx, IH.
Qed.

(** A bracket match without a placement: the key [p] is absent, or its
    value is false (null, zero, an empty string). *)
Lemma placement_free_cases (m : json) :
  (forall fields, m = JObj fields ->
     truthy (match lookup "p" fields with
             | Some x => x
             | None => JStr EmptyString
             end) = false) ->
  (exists fields,
     m = JObj fields
     /\ truthy (match lookup "p" fields with
                | Some x => x
                | None => JStr EmptyString
                end) = false)
  \/ (forall key default, py_get m key default = Err (Fault (NoAttribute m "get"))).
Proof.
  intro H. destruct m; try (right; intros; reflexivity).
  left. eexists. split; [reflexivity | now apply H].
Qed.

(** X16.  For a bracket in which no match carries a placement, the losers
    report and the winners report differ in their title line only: both
    render the same matches the same way, or both fail with the same
    error. *)
Theorem brackets_differ_in_title_only {RT : PyRuntime}
    (LEAGUE_ID league_id : string) (w : world) (bracket : list json) :
  resolve_league LEAGUE_ID league_id <> EmptyString ->
  bracket <> [] ->
  remote w (BASE_URL ++ "/league/" ++ resolve_league LEAGUE_ID league_id
            ++ "/winners_bracket") = Body (JArr bracket) ->
  remote w (BASE_URL ++ "/league/" ++ resolve_league LEAGUE_ID league_id
            ++ "/losers_bracket") = Body (JArr bracket) ->
  Forall (fun m =>
            forall fields,
              m = JObj fields ->
              truthy (match lookup "p" fields with
                      | Some x => x
                      | None => JStr EmptyString
                      end) = false)
         bracket ->
  exists matches : result string,
    fst (get_winners_bracket LEAGUE_ID league_id w)
    = report (body <- matches ;; Ok ("🏆 Winners Bracket:" ++ nl ++ nl ++ body))
    /\ fst (get_losers_bracket LEAGUE_ID league_id w)
       = report (body <- matches ;; Ok ("🎯 Losers Bracket:" ++ nl ++ nl ++ body)).
Proof.
  intros Hlid Hne Hwinners Hlosers Hfree.
  unfold get_winners_bracket, get_losers_bracket, with_league.
  apply is_empty_false_iff in Hlid. rewrite Hlid.
  rewrite (try_request_body _ _ w _ Hwinners), (try_request_body _ _ w _ Hlosers).
  assert (truthy (JArr bracket) = true) as ->
    by (destruct bracket; [congruence | reflexivity]).
  cbn [negb py_iter bind].
  eexists. split; [reflexivity |].
  f_equal. f_equal. apply for_each_same.
  apply Forall_forall. intros m Hm i.
  rewrite Forall_forall in Hfree.
  destruct (placement_free_cases m (Hfree m Hm)) as [(fields & -> & Hp) | Hget].
  - unfold field, py_get. cbn [bind]. rewrite Hp. reflexivity.
  - unfold field. rewrite !Hget. reflexivity.
Qed.

Lemma brackets_differ_in_title_only_witness :
  exists matches : result string,
    fst (get_winners_bracket EmptyString "1048"
           (answering (JArr [JObj [("r", JInt 1); ("m", JInt 1); ("t1", JInt 3);
                                   ("t2", JInt 6); ("w", JNull)]])))
    = report (body <- matches ;; Ok ("🏆 Winners Bracket:" ++ nl ++ nl ++ body))
    /\ fst (get_losers_bracket EmptyString "1048"
              (answering (JArr [JObj [("r", JInt 1); ("m", JInt 1); ("t1", JInt 3);
                                      ("t2", JInt 6); ("w", JNull)]])))
       = report (body <- matches ;; Ok ("🎯 Losers Bracket:" ++ nl ++ nl ++ body)).
Proof.
  apply (brackets_differ_in_title_only EmptyString "1048"
           (answering (JArr [JObj [("r", JInt 1); ("m", JInt 1); ("t1", JInt 3);
                                   ("t2", JInt 6); ("w", JNull)]]))
           [JObj [("r", JInt 1); ("m", JInt 1); ("t1", JInt 3);
                  ("t2", JInt 6); ("w", JNull)]]).
  - discriminate.
  - discriminate.
  - reflexivity.
  - reflexivity.
  - repeat constructor. intros fields Heq. injection Heq as <-. reflexivity.
Defined.

(** A bracket of one undecided match, in both reports. *)
Example undecided_match_reports :
  fst (get_winners_bracket EmptyString "1048"
         (answering (JArr [JObj [("r", JInt 1); ("m", JInt 1); ("t1", JInt 3);
                                 ("t2", JInt 6); ("w", JNull)]])))
  = "🏆 Winners Bracket:" ++ nl ++ nl
    ++ "Round 1, Match 1:" ++ nl ++ "  Team 1: Roster 3" ++ nl
    ++ "  Team 2: Roster 6" ++ nl ++ nl
  /\ fst (get_losers_bracket EmptyString "1048"
            (answering (JArr [JObj [("r", JInt 1); ("m", JInt 1); ("t1", JInt 3);
                                    ("t2", JInt 6); ("w", JNull)]])))
     = "🎯 Losers Bracket:" ++ nl ++ nl
       ++ "Round 1, Match 1:" ++ nl ++ "  Team 1: Roster 3" ++ nl
       ++ "  Team 2: Roster 6" ++ nl ++ nl.
Proof. split; reflexivity. Qed.

(** ** Edge cases of single entries *)

(** X17.  A draft pick without metadata is rendered, not refused: the
    player is [Unknown], position and team are the placeholder, and the
    keeper line appears exactly when [is_keeper] is true in Python. *)
Theorem pick_without_metadata_is_Unknown {RT : PyRuntime}
    (fields : list (string * json)) :
  lookup "metadata" fields = None ->
  let shown key :=
    match lookup key fields with Some x => py_str x | None => "N/A" end in
  let keeper :=
    match lookup "is_keeper" fields with
    | Some flag => truthy flag
    | None => false
    end in
  render_pick (JObj fields)
  = Ok ("Pick " ++ shown "pick_no" ++ " (Round " ++ shown "round" ++ "):" ++ nl
        ++ "  Player: Unknown - N/A (N/A)" ++ nl
        ++ "  Roster ID: " ++ shown "roster_id" ++ nl
        ++ (if keeper then "  ⭐ Keeper" ++ nl else EmptyString)
        ++ nl).
Proof.
  intros Hmeta shown keeper. subst shown keeper.
  unfold render_pick, field, py_get. rewrite Hmeta. cbn [bind lookup].
  destruct (lookup "pick_no" fields); destruct (lookup "round" fields);
    destruct (lookup "roster_id" fields); destruct (lookup "is_keeper" fields);
    reflexivity.
Qed.

Lemma pick_without_metadata_is_Unknown_witness :
  render_pick (JObj [("pick_no", JInt 7); ("round", JInt 1);
                     ("roster_id", JInt 2); ("is_keeper", JBool true)])
  = Ok ("Pick 7 (Round 1):" ++ nl
        ++ "  Player: Unknown - N/A (N/A)" ++ nl
        ++ "  Roster ID: 2" ++ nl
        ++ "  ⭐ Keeper" ++ nl
        ++ nl).
Proof.
  apply (pick_without_metadata_is_Unknown
           [("pick_no", JInt 7); ("round", JInt 1);
            ("roster_id", JInt 2); ("is_keeper", JBool true)]).
  reflexivity.
Defined.

(** X18.  The defaults of [format_roster] cover absent keys only.  A
    roster without [starters] gets an empty starters line; a roster whose
    [starters] is null is not rendered, and neither is one whose
    [settings] is null: the formatter raises. *)
Theorem null_collections_fail_roster {RT : PyRuntime}
    (fields : list (string * json)) (index : nat) :
  (absent_or_object "settings" fields ->
   absent_or_list "players" fields ->
   (lookup "starters" fields = None ->
    exists pre,
      format_roster (JObj fields) index = Ok (pre ++ nl ++ "- Starters: "))
   /\ (lookup "starters" fields = Some JNull ->
       format_roster (JObj fields) index = Err (Fault (NoSlice JNull))))
  /\ (lookup "settings" fields = Some JNull ->
      format_roster (JObj fields) index = Err (Fault (NoAttribute JNull "get"))).
Proof.
  split.
  - intros Hsettings Hplayers.
    unfold format_roster, starters_shown, field, py_get. cbn [bind].
    split; intros ->; cbn [py_slice py_join py_iter all_str py_len bind];
      destruct Hplayers as [-> | [items ->]];
      destruct Hsettings as [-> | [inner ->]];
      cbn [bind py_len]; try reflexivity.
    all: cbn [firstn join length Nat.ltb Nat.leb];
      rewrite ?string_app_nil_r; ends_with.
  - intro Hnull. unfold format_roster, py_get. rewrite Hnull. reflexivity.
Qed.

Lemma null_collections_fail_roster_witness :
  format_roster (JObj [("roster_id", JInt 1); ("starters", JNull)]) 0
  = Err (Fault (NoSlice JNull))
  /\ format_roster (JObj [("roster_id", JInt 1); ("settings", JNull)]) 0
     = Err (Fault (NoAttribute JNull "get")).
Proof.
  split.
  - destruct (null_collections_fail_roster
                [("roster_id", JInt 1); ("starters", JNull)] 0) as [Hstarters _].
    destruct Hstarters as [_ Hnull];
      [left; reflexivity | left; reflexivity |].
    apply Hnull. reflexivity.
  - destruct (null_collections_fail_roster
                [("roster_id", JInt 1); ("settings", JNull)] 0) as [_ Hsettings].
    apply Hsettings. reflexivity.
Defined.
